(** * ReviewGuardFHE: the review ledger of [contracts/review_guard_fhe.sol]

    A shallow embedding of the Solidity contract [ReviewGuardFHE] and the
    properties of its review lifecycle and score aggregation.

    - [uint256] and [uint32] values are binary naturals ([N]); Solidity 0.8
      arithmetic is checked, so an overflow is a [Panic] revert and never a
      wrap-around.
    - [mapping]s are finite maps ([gmap]) read with the type's zero value
      where no entry was written.
    - A call either succeeds with a new state and the effects it had on the
      outside world (events, ACL calls), or reverts; a reverted transaction
      leaves the storage as it was.
    - The FHE library ([FHE.fromExternal], [FHE.isInitialized],
      [FHE.checkSignatures]) is not part of the repository: the development
      is parametric in it. *)

From Stdlib Require Import NArith Strings.Byte.
From stdpp Require Import gmap strings list fin_maps.

Local Open Scope N_scope.

(** ** Machine integers and reverts *)

Definition uint256_max : N := 2 ^ 256 - 1.
Definition uint32_max : N := 2 ^ 32 - 1.

(** The ways a call can abort. [Revert reason] is a failed
    [require(cond, reason)]; [FheRevert] is a revert raised inside the FHE
    library (input verification, [InvalidKMSSignatures]); [Panic 0x11] is an
    arithmetic overflow; [DecodeRevert] is [abi.decode] on malformed data. *)
Inductive Failure : Type :=
| Revert (reason : string)
| FheRevert
| Panic (code : N)
| DecodeRevert.

Inductive result (A : Type) : Type :=
| Ok (a : A)
| Err (f : Failure).
Arguments Ok {A} a.
Arguments Err {A} f.

#[global] Instance result_ret : MRet result := fun _ a => Ok a.
#[global] Instance result_bind : MBind result := fun _ _ k m =>
  match m with
  | Ok a => k a
  | Err f => Err f
  end.

Definition require (cond : bool) (reason : string) : result unit :=
  if cond then Ok tt else Err (Revert reason).

Definition checked_add (a b : N) : result N :=
  if a + b <=? uint256_max then Ok (a + b) else Err (Panic 17).

Definition checked_mul (a b : N) : result N :=
  if a * b <=? uint256_max then Ok (a * b) else Err (Panic 17).

(** The error kinds of the specification, as names for the contract's
    revert reasons. Overflow panics and decoding failures have no name
    there. *)
Inductive ErrorKind : Type :=
| NotFound
| AlreadyExists
| InvalidInput
| DepartmentMismatch
| InvalidProof
| AlreadyVerified
| EmptyAggregation.

Definition error_kind (f : Failure) : option ErrorKind :=
  match f with
  | Revert r =>
      if String.eqb r "Employee does not exist" then Some NotFound
      else if String.eqb r "Employee already exists" then Some AlreadyExists
      else if String.eqb r "Weight must be positive" then Some InvalidInput
      else if String.eqb r "Department mismatch" then Some DepartmentMismatch
      else if String.eqb r "Invalid encrypted input" then Some InvalidProof
      else if String.eqb r "Review already verified" then Some AlreadyVerified
      else if String.eqb r "No reviews available" then Some EmptyAggregation
      else None
  | FheRevert => Some InvalidProof
  | Panic _ => None
  | DecodeRevert => None
  end.

(** ** ABI encoding *)

Definition byte_of_N (n : N) : byte :=
  match Byte.of_N (n mod 256) with
  | Some b => b
  | None => x00
  end.

(** [len] bytes of [n], most significant first. *)
Fixpoint be_bytes (len : nat) (n : N) : list byte :=
  match len with
  | O => []
  | S k => be_bytes k (n / 256) ++ [byte_of_N n]
  end.

Definition be_value (bs : list byte) : N :=
  fold_left (fun acc b => acc * 256 + Byte.to_N b) bs 0.

(** [abi.encodePacked] of a [uint256]: 32 bytes, no padding added. *)
Definition encodePacked_uint256 (n : N) : list byte := be_bytes 32 n.

(** [abi.encode(uint32 v)]: one 32-byte word. *)
Definition abi_encode_uint32 (v : N) : list byte := be_bytes 32 v.

(** [abi.decode(data, (uint32))]: reads the first word; reverts when the
    data is shorter than a word or the word does not fit 32 bits. *)
Definition abi_decode_uint32 (data : list byte) : result N :=
  if (length data <? 32)%nat then Err DecodeRevert
  else
    let v := be_value (take 32 data) in
    if v <=? uint32_max then Ok v else Err DecodeRevert.

(** ** Storage *)

Module Review.
Record t : Type := mk {
  encryptedScore : N;      (* euint32: a bytes32 handle *)
  weight : N;
  departmentId : N;
  reviewer : N;            (* address *)
  timestamp : N;
  decryptedScore : N;      (* uint32 *)
  isVerified : bool
}.

(** The value of a storage slot never written. *)
Definition zero : t := mk 0 0 0 0 0 0 false.

(** [review.decryptedScore = v; review.isVerified = true] *)
Definition set_verified (r : t) (v : N) : t :=
  mk (encryptedScore r) (weight r) (departmentId r) (reviewer r)
    (timestamp r) v true.
End Review.

Module Employee.
Record t : Type := mk {
  employeeId : string;
  name : string;
  totalScore : N;
  reviewCount : N;
  departmentId : N;
  reviews : gmap string Review.t
}.

Definition zero : t := mk "" "" 0 0 0 ∅.

(** [employee.reviews[reviewId]] *)
Definition review (e : t) (reviewId : string) : Review.t :=
  default Review.zero (reviews e !! reviewId).

(** Storage writes through an [Employee storage] reference. *)
Definition set_review (e : t) (reviewId : string) (r : Review.t) : t :=
  mk (employeeId e) (name e) (totalScore e) (reviewCount e) (departmentId e)
    (<[reviewId := r]> (reviews e)).

Definition set_totalScore (e : t) (v : N) : t :=
  mk (employeeId e) (name e) v (reviewCount e) (departmentId e) (reviews e).

Definition set_reviewCount (e : t) (v : N) : t :=
  mk (employeeId e) (name e) (totalScore e) v (departmentId e) (reviews e).
End Employee.

Record State : Type := mkState {
  employees : gmap string Employee.t;
  departmentEmployees : gmap N (list string);
  employeeExists : gmap string bool
}.

Definition initial : State := mkState ∅ ∅ ∅.

(** [employees[employeeId]] *)
Definition employee_at (st : State) (employeeId : string) : Employee.t :=
  default Employee.zero (employees st !! employeeId).

(** The storage with [employees[employeeId]] replaced by [e]. *)
Definition store_employee (st : State) (employeeId : string)
    (e : Employee.t) : State :=
  mkState (<[employeeId := e]> (employees st))
    (departmentEmployees st) (employeeExists st).

(** [employeeExists[employeeId]] *)
Definition exists_at (st : State) (employeeId : string) : bool :=
  default false (employeeExists st !! employeeId).

(** [departmentEmployees[departmentId]] *)
Definition department_at (st : State) (departmentId : N) : list string :=
  default [] (departmentEmployees st !! departmentId).

(** Storage is only ever written for a registered employee. *)
Definition registered (st : State) : Prop :=
  forall id, exists_at st id = false -> employees st !! id = None.

(** ** Aggregates over an employee's reviews *)

Definition verified (kr : string * Review.t) : Prop :=
  Review.isVerified kr.2 = true.

#[global] Instance verified_dec kr : Decision (verified kr) :=
  decide (Review.isVerified kr.2 = true).

(** The number of stored reviews with [isVerified == true]. *)
Definition count_verified (m : gmap string Review.t) : nat :=
  size (filter verified m).

Definition indicator (r : Review.t) : nat :=
  if Review.isVerified r then 1%nat else 0%nat.

(** What a review has added to [totalScore]: nothing while pending,
    [decryptedScore * weight] once verified. *)
Definition contribution (r : Review.t) : N :=
  if Review.isVerified r then Review.decryptedScore r * Review.weight r
  else 0.

Definition weighted_sum (m : gmap string Review.t) : N :=
  map_fold (fun _ r acc => contribution r + acc) 0 m.

(** ** The outside world *)

Inductive Event : Type :=
| ReviewSubmitted (employeeId : string) (reviewer : N)
| ReviewDecrypted (employeeId : string) (decryptedScore : N)
| FinalScoreCalculated (employeeId : string) (finalScore : N).

Inductive Effect : Type :=
| AllowThis (handle : N)
| MakePubliclyDecryptable (handle : N)
| Emit (ev : Event).

(** [msg.sender] and [block.timestamp] of the transaction. *)
Record Env : Type := mkEnv {
  msg_sender : N;
  block_timestamp : N
}.

(** The FHE library the contract calls into.
    - [fromExternal ct proof] is the handle of the verified input, [None]
      when input verification reverts;
    - [isInitialized h] tells whether a handle is set;
    - [checkSignatures cts clear proof] is [false] when the call reverts. *)
Record FheService : Type := mkFhe {
  fromExternal : N -> list byte -> option N;
  isInitialized : N -> bool;
  checkSignatures : list N -> list byte -> list byte -> bool
}.

(** [FHE.toBytes32]: unwraps the handle. *)
Definition toBytes32 (h : N) : N := h.

(** ** The contract *)

Section Contract.

Variable FHE : FheService.

Definition FHE_fromExternal (ct : N) (proof : list byte) : result N :=
  match fromExternal FHE ct proof with
  | Some h => Ok h
  | None => Err FheRevert
  end.

Definition FHE_checkSignatures (cts : list N) (clear proof : list byte)
  : result unit :=
  if checkSignatures FHE cts clear proof then Ok tt else Err FheRevert.

(** [string(abi.encodePacked(employeeId, "_", uint256(block.timestamp)))] *)
Definition derive_reviewId (employeeId : string) (ts : N) : string :=
  String.append employeeId
    (String.append "_" (String.string_of_list_byte (encodePacked_uint256 ts))).

(** [submitReview] (lines 36-66). The checks run in source order: employee,
    weight, input verification, department. The review slot is derived from
    the employee id and the block timestamp and every field of it is
    written, whatever it held before. *)
Definition submitReview (env : Env) (st : State)
    (employeeId : string) (encryptedScore : N) (inputProof : list byte)
    (weight departmentId : N) : result (State * list Effect) :=
  _ ← require (exists_at st employeeId) "Employee does not exist";
  _ ← require (0 <? weight) "Weight must be positive";
  h ← FHE_fromExternal encryptedScore inputProof;
  _ ← require (isInitialized FHE h) "Invalid encrypted input";
  let employee := employee_at st employeeId in
  _ ← require (Employee.departmentId employee =? departmentId)
        "Department mismatch";
  let reviewId := derive_reviewId employeeId (block_timestamp env) in
  h' ← FHE_fromExternal encryptedScore inputProof;
  let newReview :=
    Review.mk h' weight departmentId (msg_sender env)
      (block_timestamp env) 0 false in
  let employee' := Employee.set_review employee reviewId newReview in
  Ok (store_employee st employeeId employee',
      [AllowThis h'; MakePubliclyDecryptable h';
       Emit (ReviewSubmitted employeeId (msg_sender env))]).

(** [verifyReview] (lines 68-93). The review is read from storage without an
    existence check: an unknown id reads [Review.zero]. The multiplication,
    the addition and the increment are checked. *)
Definition verifyReview (st : State)
    (employeeId reviewId : string)
    (abiEncodedClearValue decryptionProof : list byte)
    : result (State * list Effect) :=
  _ ← require (exists_at st employeeId) "Employee does not exist";
  let employee := employee_at st employeeId in
  let review := Employee.review employee reviewId in
  _ ← require (negb (Review.isVerified review)) "Review already verified";
  let cts := [toBytes32 (Review.encryptedScore review)] in
  _ ← FHE_checkSignatures cts abiEncodedClearValue decryptionProof;
  decodedValue ← abi_decode_uint32 abiEncodedClearValue;
  let review' := Review.set_verified review decodedValue in
  weighted ← checked_mul decodedValue (Review.weight review');
  total ← checked_add (Employee.totalScore employee) weighted;
  count ← checked_add (Employee.reviewCount employee) 1;
  let employee' :=
    Employee.set_reviewCount
      (Employee.set_totalScore
         (Employee.set_review employee reviewId review') total)
      count in
  Ok (store_employee st employeeId employee',
      [Emit (ReviewDecrypted employeeId decodedValue)]).

(** [calculateFinalScore] (lines 95-105). The divisor is positive after the
    second [require], so the division cannot panic. *)
Definition calculateFinalScore (st : State) (employeeId : string)
    : result (State * list Effect) :=
  _ ← require (exists_at st employeeId) "Employee does not exist";
  let employee := employee_at st employeeId in
  _ ← require (0 <? Employee.reviewCount employee) "No reviews available";
  let finalScore :=
    Employee.totalScore employee / Employee.reviewCount employee in
  let employee' := Employee.set_totalScore employee finalScore in
  Ok (store_employee st employeeId employee',
      [Emit (FinalScoreCalculated employeeId finalScore)]).

(** [addEmployee] (lines 107-123). The [reviews] mapping of the slot is not
    touched. *)
Definition addEmployee (st : State)
    (employeeId name : string) (departmentId : N)
    : result (State * list Effect) :=
  _ ← require (negb (exists_at st employeeId)) "Employee already exists";
  let newEmployee := employee_at st employeeId in
  let newEmployee' :=
    Employee.mk employeeId name 0 0 departmentId
      (Employee.reviews newEmployee) in
  Ok (mkState (<[employeeId := newEmployee']> (employees st))
        (<[departmentId := department_at st departmentId ++ [employeeId]]>
           (departmentEmployees st))
        (<[employeeId := true]> (employeeExists st)),
      []).

(** The view functions. *)

Definition getEmployee (st : State) (employeeId : string)
    : result (string * N * N * N) :=
  _ ← require (exists_at st employeeId) "Employee does not exist";
  let employee := employee_at st employeeId in
  Ok (Employee.name employee, Employee.totalScore employee,
      Employee.reviewCount employee, Employee.departmentId employee).

Definition getReview (st : State) (employeeId reviewId : string)
    : result (N * N * N * N * N * bool) :=
  _ ← require (exists_at st employeeId) "Employee does not exist";
  let employee := employee_at st employeeId in
  let review := Employee.review employee reviewId in
  Ok (Review.weight review, Review.departmentId review,
      Review.reviewer review, Review.timestamp review,
      Review.decryptedScore review, Review.isVerified review).

Definition getDepartmentEmployees (st : State) (departmentId : N)
    : list string :=
  department_at st departmentId.

Definition isAvailable : bool := true.

(** ** Transactions *)

Inductive Call : Type :=
| AddEmployee (employeeId name : string) (departmentId : N)
| SubmitReview (employeeId : string) (encryptedScore : N)
    (inputProof : list byte) (weight departmentId : N)
| VerifyReview (employeeId reviewId : string)
    (abiEncodedClearValue decryptionProof : list byte)
| CalculateFinalScore (employeeId : string).

Record Tx : Type := mkTx { tx_env : Env; tx_call : Call }.

Definition dispatch (st : State) (tx : Tx) : result (State * list Effect) :=
  match tx_call tx with
  | AddEmployee i n d => addEmployee st i n d
  | SubmitReview i ct p w d => submitReview (tx_env tx) st i ct p w d
  | VerifyReview i r c p => verifyReview st i r c p
  | CalculateFinalScore i => calculateFinalScore st i
  end.

(** The storage after a transaction: a revert rolls everything back. *)
Definition apply_tx (st : State) (tx : Tx) : State :=
  match dispatch st tx with
  | Ok (st', _) => st'
  | Err _ => st
  end.

(** What the caller sees: the effects of a successful call or the
    failure. *)
Definition outcome (st : State) (tx : Tx) : result (list Effect) :=
  match dispatch st tx with
  | Ok (_, effs) => Ok effs
  | Err f => Err f
  end.

Definition run (st : State) (txs : list Tx) : State :=
  fold_left apply_tx txs st.

(** A successful [submitReview] for [employeeId] whose derived id is that of
    a review already verified: the write at lines 54-60 replaces it. *)
Definition clobbers (st : State) (tx : Tx) (employeeId : string) : bool :=
  match tx_call tx, dispatch st tx with
  | SubmitReview i _ _ _ _, Ok _ =>
      bool_decide (i = employeeId)
      && Review.isVerified
           (Employee.review (employee_at st i)
              (derive_reviewId i (block_timestamp (tx_env tx))))
  | _, _ => false
  end.

(** A successful [submitReview] that writes the review [reviewId] of
    [employeeId]. *)
Definition rewrites (st : State) (tx : Tx) (employeeId reviewId : string)
  : bool :=
  match tx_call tx, dispatch st tx with
  | SubmitReview i _ _ _ _, Ok _ =>
      bool_decide (i = employeeId)
      && bool_decide
           (derive_reviewId i (block_timestamp (tx_env tx)) = reviewId)
  | _, _ => false
  end.

(** A call of [calculateFinalScore] for [employeeId]. *)
Definition finalizes (tx : Tx) (employeeId : string) : bool :=
  match tx_call tx with
  | CalculateFinalScore i => bool_decide (i = employeeId)
  | _ => false
  end.

(** [avoids bad st txs]: no transaction of [txs], run from [st], is [bad]
    in the state it is applied to. *)
Fixpoint avoids (bad : State -> Tx -> bool) (st : State) (txs : list Tx)
  : bool :=
  match txs with
  | [] => true
  | tx :: rest => negb (bad st tx) && avoids bad (apply_tx st tx) rest
  end.

End Contract.

(** ** Sample services and transactions *)

(** A service that accepts every input and every attestation. *)
Definition fhe_accepting : FheService :=
  mkFhe (fun ct _ => Some ct) (fun h => negb (h =? 0)) (fun _ _ _ => true).

(** A service that accepts inputs and rejects every attestation. *)
Definition fhe_no_attest : FheService :=
  mkFhe (fun ct _ => Some ct) (fun h => negb (h =? 0)) (fun _ _ _ => false).

(** A service that rejects every input. *)
Definition fhe_no_ingest : FheService :=
  mkFhe (fun _ _ => None) (fun h => negb (h =? 0)) (fun _ _ _ => true).

Definition at_time (ts : N) (c : Call) : Tx := mkTx (mkEnv 7 ts) c.

Definition add_E1 : Tx := at_time 1000 (AddEmployee "E1" "Alice" 10).

Definition rid_E1 (ts : N) : string := derive_reviewId "E1" ts.

Definition submit_E1 (ts weight : N) : Tx :=
  at_time ts (SubmitReview "E1" 55 [] weight 10).

(** Verification, at time [now], of the review submitted at [ts]. *)
Definition verify_E1 (now ts clear : N) : Tx :=
  at_time now (VerifyReview "E1" (rid_E1 ts) (abi_encode_uint32 clear) []).

Definition finalize_E1 (now : N) : Tx :=
  at_time now (CalculateFinalScore "E1").

(** One review of weight 2, verified with the clear value 8. *)
Definition one_verified : list Tx :=
  [add_E1; submit_E1 1000 2; verify_E1 1012 1000 8].

(** Two reviews, weight 2 with score 8 and weight 3 with score 6. *)
Definition two_verified : list Tx :=
  [add_E1; submit_E1 1000 2; submit_E1 1012 3;
   verify_E1 1024 1000 8; verify_E1 1036 1012 6].

(** A submission and its verification in the block with timestamp 1000. *)
Definition verified_in_block : list Tx :=
  [add_E1; submit_E1 1000 2; verify_E1 1000 1000 8].

(** The same, followed by a second submission in that block. *)
Definition same_block : list Tx := verified_in_block ++ [submit_E1 1000 2].

(** A submission for E1 that names department 11 instead of 10. *)
Definition wrong_department : Tx :=
  at_time 1000 (SubmitReview "E1" 55 [] 1 11).

(** A verification for E1 under an id that no submission derived. *)
Definition verify_unknown (clear : N) : Tx :=
  at_time 1000 (VerifyReview "E1" "E1_unknown" (abi_encode_uint32 clear) []).

(** A review whose weight is the largest [uint256]. *)
Definition heavy : list Tx := [add_E1; submit_E1 1000 uint256_max].

(** ** Proof automation *)

(** Case analysis on the first undecided step of a call. *)
Ltac bind_step :=
  match goal with
  | |- context [mbind _ (if ?c then _ else _)] => destruct c eqn:?
  | |- context [mbind _ (match ?c with _ => _ end)] => destruct c eqn:?
  | |- context [mbind _ (abi_decode_uint32 ?c)] =>
      destruct (abi_decode_uint32 c) eqn:?
  end; cbn [mbind result_bind].

Ltac unfold_ops :=
  unfold submitReview, verifyReview, calculateFinalScore, addEmployee,
    FHE_fromExternal, FHE_checkSignatures, checked_add, checked_mul, require.

Ltac reflect_N :=
  repeat match goal with
  | H : (_ <? _) = true |- _ => apply N.ltb_lt in H
  | H : (_ <? _) = false |- _ => apply N.ltb_ge in H
  | H : (_ <=? _) = true |- _ => apply N.leb_le in H
  | H : (_ <=? _) = false |- _ => apply N.leb_gt in H
  | H : (_ =? _) = true |- _ => apply N.eqb_eq in H
  | H : (_ =? _) = false |- _ => apply N.eqb_neq in H
  end.

Ltac invert_op :=
  unfold_ops; repeat bind_step; try discriminate; intros [= <- <-];
  reflect_N.

(** * Properties *)

(** ** Aggregates under a write *)

Section Aggregates.
Implicit Types (m : gmap string Review.t) (r : Review.t) (k : string).

Lemma count_verified_fresh m k r :
  m !! k = None ->
  count_verified (<[k:=r]> m) = (indicator r + count_verified m)%nat.
Proof.
  intros Hk. unfold count_verified, indicator.
  rewrite map_filter_insert.
  destruct (decide (verified (k, r))) as [Hv|Hv]; unfold verified in Hv; simpl in Hv.
  - rewrite Hv. rewrite map_size_insert_None; [done|].
    rewrite map_lookup_filter, Hk. done.
  - destruct (Review.isVerified r); [done|].
    by rewrite delete_id.
Qed.

(** Writing [r] under [k] trades the old entry's share for the new one's;
    an absent entry counts as the zero review. *)
Lemma count_verified_insert m k r :
  (count_verified (<[k:=r]> m) + indicator (default Review.zero (m !! k)))%nat
  = (indicator r + count_verified m)%nat.
Proof.
  destruct (m !! k) as [old|] eqn:Hk; simpl.
  - rewrite <- (insert_delete_id m k old Hk) at 2.
    rewrite <- insert_delete_eq.
    rewrite !count_verified_fresh by apply lookup_delete_eq. lia.
  - rewrite count_verified_fresh by done. unfold indicator; simpl. lia.
Qed.

Lemma weighted_sum_fresh m k r :
  m !! k = None ->
  weighted_sum (<[k:=r]> m) = contribution r + weighted_sum m.
Proof.
  intros Hk. unfold weighted_sum.
  rewrite map_fold_insert_L; [done| |done].
  intros. lia.
Qed.

Lemma weighted_sum_insert m k r :
  weighted_sum (<[k:=r]> m) + contribution (default Review.zero (m !! k))
  = contribution r + weighted_sum m.
Proof.
  destruct (m !! k) as [old|] eqn:Hk; simpl.
  - rewrite <- (insert_delete_id m k old Hk) at 2.
    rewrite <- insert_delete_eq.
    rewrite !weighted_sum_fresh by apply lookup_delete_eq. lia.
  - rewrite weighted_sum_fresh by done. unfold contribution; simpl. lia.
Qed.

End Aggregates.

(** ** The operations, case by case *)

Section Operations.
Variable FHE : FheService.
Implicit Types (st : State) (tx : Tx) (id rid : string).

Lemma employee_at_store st i e id :
  employee_at (store_employee st i e) id
  = if decide (i = id) then e else employee_at st id.
Proof.
  unfold employee_at, store_employee; simpl.
  rewrite lookup_insert. by case_decide.
Qed.

Lemma exists_at_store st i e id :
  exists_at (store_employee st i e) id = exists_at st id.
Proof. done. Qed.

Lemma addEmployee_Ok st i n d st' effs :
  addEmployee st i n d = Ok (st', effs) ->
  exists_at st i = false /\
  st' = mkState
          (<[i := Employee.mk i n 0 0 d
                    (Employee.reviews (employee_at st i))]> (employees st))
          (<[d := department_at st d ++ [i]]> (departmentEmployees st))
          (<[i := true]> (employeeExists st)) /\
  effs = [].
Proof.
  invert_op. split; [|done]. by destruct (exists_at st i).
Qed.

Lemma submitReview_Ok env st i ct p w d st' effs :
  submitReview FHE env st i ct p w d = Ok (st', effs) ->
  exists h,
    exists_at st i = true /\ 0 < w /\
    fromExternal FHE ct p = Some h /\ isInitialized FHE h = true /\
    Employee.departmentId (employee_at st i) = d /\
    st' = store_employee st i
            (Employee.set_review (employee_at st i)
               (derive_reviewId i (block_timestamp env))
               (Review.mk h w d (msg_sender env) (block_timestamp env)
                  0 false)).
Proof.
  invert_op. eexists. repeat split; try done; lia.
Qed.

Lemma verifyReview_Ok st i rid clear proof st' effs :
  verifyReview FHE st i rid clear proof = Ok (st', effs) ->
  exists v,
    let e := employee_at st i in
    let r := Employee.review e rid in
    exists_at st i = true /\ Review.isVerified r = false /\
    checkSignatures FHE [Review.encryptedScore r] clear proof = true /\
    abi_decode_uint32 clear = Ok v /\
    Employee.totalScore e + v * Review.weight r <= uint256_max /\
    Employee.reviewCount e + 1 <= uint256_max /\
    st' = store_employee st i
            (Employee.set_reviewCount
               (Employee.set_totalScore
                  (Employee.set_review e rid (Review.set_verified r v))
                  (Employee.totalScore e + v * Review.weight r))
               (Employee.reviewCount e + 1)) /\
    effs = [Emit (ReviewDecrypted i v)].
Proof.
  invert_op. eexists; simpl in *.
  repeat split; try done; try lia.
  by destruct (Review.isVerified _).
Qed.

Lemma calculateFinalScore_Ok st i st' effs :
  calculateFinalScore st i = Ok (st', effs) ->
  let e := employee_at st i in
  exists_at st i = true /\ 0 < Employee.reviewCount e /\
  st' = store_employee st i
          (Employee.set_totalScore e
             (Employee.totalScore e / Employee.reviewCount e)) /\
  effs = [Emit (FinalScoreCalculated i
                  (Employee.totalScore e / Employee.reviewCount e))].
Proof.
  invert_op. simpl. repeat split; try done; lia.
Qed.

Lemma registered_initial : registered initial.
Proof. intros id _. apply lookup_empty. Qed.

Lemma registered_step st tx : registered st -> registered (apply_tx FHE st tx).
Proof.
  intros Hreg. unfold apply_tx, dispatch.
  destruct tx as [env [i n d|i ct p w d|i rid c p|i]]; simpl.
  - destruct (addEmployee st i n d) as [[st' effs]|] eqn:Hop; [|done].
    apply addEmployee_Ok in Hop as (Hex & -> & _).
    intros id. unfold exists_at; simpl. rewrite !lookup_insert.
    case_decide; [done|]. apply Hreg.
  - destruct (submitReview _ _ _ _ _ _ _ _) as [[st' effs]|] eqn:Hop; [|done].
    apply submitReview_Ok in Hop as (h & Hex & _ & _ & _ & _ & ->).
    intros id. rewrite exists_at_store. simpl. rewrite lookup_insert.
    case_decide; [congruence|]. apply Hreg.
  - destruct (verifyReview _ _ _ _ _ _) as [[st' effs]|] eqn:Hop; [|done].
    apply verifyReview_Ok in Hop as (v & Hex & _ & _ & _ & _ & _ & -> & _).
    intros id. rewrite exists_at_store. simpl. rewrite lookup_insert.
    case_decide; [congruence|]. apply Hreg.
  - destruct (calculateFinalScore _ _) as [[st' effs]|] eqn:Hop; [|done].
    apply calculateFinalScore_Ok in Hop as (Hex & _ & -> & _).
    intros id. rewrite exists_at_store. simpl. rewrite lookup_insert.
    case_decide; [congruence|]. apply Hreg.
Qed.

Lemma registered_run txs st : registered st -> registered (run FHE st txs).
Proof.
  revert st. induction txs as [|tx txs IH]; intros st Hreg; [done|].
  apply IH, registered_step, Hreg.
Qed.

End Operations.

(** ** Claims *)

Section Claims.
Variable FHE : FheService.
Implicit Types (st : State) (tx : Tx) (env : Env) (i id rid : string).

Lemma verifyReview_success st i rid clear proof v :
  let e := employee_at st i in
  let r := Employee.review e rid in
  exists_at st i = true ->
  Review.isVerified r = false ->
  checkSignatures FHE [Review.encryptedScore r] clear proof = true ->
  abi_decode_uint32 clear = Ok v ->
  Employee.totalScore e + v * Review.weight r <= uint256_max ->
  Employee.reviewCount e + 1 <= uint256_max ->
  verifyReview FHE st i rid clear proof
  = Ok (store_employee st i
          (Employee.set_reviewCount
             (Employee.set_totalScore
                (Employee.set_review e rid (Review.set_verified r v))
                (Employee.totalScore e + v * Review.weight r))
             (Employee.reviewCount e + 1)),
        [Emit (ReviewDecrypted i v)]).
Proof.
  intros e r Hex Hnv Hsig Hdec Htot Hcnt.
  unfold_ops. fold e. fold r. rewrite Hex, Hnv. cbn [negb mbind result_bind].
  unfold toBytes32. rewrite Hsig. cbn [mbind result_bind].
  rewrite Hdec. cbn [mbind result_bind Review.weight Review.set_verified].
  assert (v * Review.weight r <= uint256_max) as Hmul by lia.
  apply N.leb_le in Hmul, Htot, Hcnt.
  rewrite Hmul. cbn [mbind result_bind]. rewrite Htot. cbn [mbind result_bind].
  rewrite Hcnt. done.
Qed.

(** C1 (amended): for an existing employee and a stored review with
    [isVerified == false], a [verifyReview] call whose attestation is accepted
    and whose clear value [v] decodes as a [uint32] succeeds whenever
    [totalScore + v * weight] and [reviewCount + 1] fit a [uint256]; it then
    sets the review's [decryptedScore] to [v] and [isVerified] to [true], adds
    [v * weight] to the employee's [totalScore] and 1 to its [reviewCount].
    After [addEmployee("E1")], one [submitReview] of weight 2 and one
    [verifyReview] with clear value 8, [totalScore] is 16 and [reviewCount]
    is 1. *)
Theorem verifyReview_accumulates :
  (forall st env i rid r clear proof v,
      exists_at st i = true ->
      Employee.reviews (employee_at st i) !! rid = Some r ->
      Review.isVerified r = false ->
      checkSignatures FHE [Review.encryptedScore r] clear proof = true ->
      abi_decode_uint32 clear = Ok v ->
      Employee.totalScore (employee_at st i) + v * Review.weight r
        <= uint256_max ->
      Employee.reviewCount (employee_at st i) + 1 <= uint256_max ->
      let tx := mkTx env (VerifyReview i rid clear proof) in
      let e := employee_at st i in
      let e' := employee_at (apply_tx FHE st tx) i in
      outcome FHE st tx = Ok [Emit (ReviewDecrypted i v)] /\
      Employee.reviews e' !! rid
        = Some (Review.mk (Review.encryptedScore r) (Review.weight r)
                  (Review.departmentId r) (Review.reviewer r)
                  (Review.timestamp r) v true) /\
      Employee.totalScore e' = Employee.totalScore e + v * Review.weight r /\
      Employee.reviewCount e' = Employee.reviewCount e + 1)
  /\
  (let e := employee_at (run fhe_accepting initial one_verified) "E1" in
   Employee.totalScore e = 16 /\ Employee.reviewCount e = 1).
Proof.
  split; [|by vm_compute].
  intros st env i rid r clear proof v Hex Hr Hnv Hsig Hdec Htot Hcnt tx e e'.
  assert (Employee.review e rid = r) as Hrev
    by (unfold Employee.review; fold e in Hr; by rewrite Hr).
  pose proof (verifyReview_success st i rid clear proof v) as Hok.
  cbv zeta in Hok. fold e in Hok. rewrite Hrev in Hok.
  specialize (Hok Hex Hnv Hsig Hdec Htot Hcnt).
  unfold e', outcome, apply_tx, dispatch, tx; simpl. rewrite Hok.
  rewrite employee_at_store. rewrite decide_True by done. simpl.
  rewrite lookup_insert_eq. done.
Qed.

(** C5: for an existing employee with [reviewCount > 0],
    [calculateFinalScore] succeeds and overwrites [totalScore] with the
    truncated quotient [totalScore / reviewCount]. With two verified reviews
    contributing 8*2 and 6*3 ([totalScore] 34, [reviewCount] 2) the first
    call leaves 17 and a second call leaves 8. *)
Theorem calculateFinalScore_floor :
  (forall st env i,
      exists_at st i = true ->
      0 < Employee.reviewCount (employee_at st i) ->
      let tx := mkTx env (CalculateFinalScore i) in
      let e := employee_at st i in
      let q := Employee.totalScore (employee_at (apply_tx FHE st tx) i) in
      outcome FHE st tx = Ok [Emit (FinalScoreCalculated i q)] /\
      q = Employee.totalScore e / Employee.reviewCount e /\
      q * Employee.reviewCount e <= Employee.totalScore e
        < (q + 1) * Employee.reviewCount e)
  /\
  (let st := run fhe_accepting initial two_verified in
   let st1 := apply_tx fhe_accepting st (finalize_E1 1048) in
   let st2 := apply_tx fhe_accepting st1 (finalize_E1 1060) in
   Employee.totalScore (employee_at st "E1") = 34 /\
   Employee.reviewCount (employee_at st "E1") = 2 /\
   Employee.totalScore (employee_at st1 "E1") = 17 /\
   Employee.totalScore (employee_at st2 "E1") = 8).
Proof.
  split; [|by vm_compute].
  intros st env i Hex Hcnt tx e q.
  unfold q, outcome, apply_tx, dispatch, tx; simpl.
  unfold calculateFinalScore, require. rewrite Hex. cbn [mbind result_bind].
  apply N.ltb_lt in Hcnt as Hb. rewrite Hb. cbn [mbind result_bind].
  rewrite employee_at_store, decide_True by done. simpl. fold e.
  split; [done|]. split; [done|].
  fold e in Hcnt.
  pose proof (N.Div0.mul_div_le (Employee.totalScore e) (Employee.reviewCount e)).
  pose proof (N.mul_succ_div_gt (Employee.totalScore e) (Employee.reviewCount e)).
  lia.
Qed.

(** C9: for an existing employee whose [reviewCount] is 0,
    [calculateFinalScore] fails with "No reviews available"
    (EmptyAggregation) and the storage, hence [totalScore], is unchanged. *)
Theorem calculateFinalScore_empty st env i :
  exists_at st i = true ->
  Employee.reviewCount (employee_at st i) = 0 ->
  let tx := mkTx env (CalculateFinalScore i) in
  outcome FHE st tx = Err (Revert "No reviews available") /\
  error_kind (Revert "No reviews available") = Some EmptyAggregation /\
  apply_tx FHE st tx = st /\
  Employee.totalScore (employee_at (apply_tx FHE st tx) i)
    = Employee.totalScore (employee_at st i).
Proof.
  intros Hex Hcnt tx.
  unfold outcome, apply_tx, dispatch, tx; simpl.
  unfold calculateFinalScore, require. rewrite Hex, Hcnt. done.
Qed.

(** C10: a successful [calculateFinalScore] changes only the [totalScore]
    of the employee it is called for: the employee's [employeeId], [name],
    [reviewCount], [departmentId] and reviews, every other employee, the
    department index and the existence flags are as before. *)
Theorem calculateFinalScore_frame st i st' effs :
  calculateFinalScore st i = Ok (st', effs) ->
  let e := employee_at st i in
  let e' := employee_at st' i in
  Employee.employeeId e' = Employee.employeeId e /\
  Employee.name e' = Employee.name e /\
  Employee.reviewCount e' = Employee.reviewCount e /\
  Employee.departmentId e' = Employee.departmentId e /\
  Employee.reviews e' = Employee.reviews e /\
  (forall j, j <> i -> employees st' !! j = employees st !! j) /\
  departmentEmployees st' = departmentEmployees st /\
  employeeExists st' = employeeExists st.
Proof.
  intros Hop e e'. apply calculateFinalScore_Ok in Hop as (_ & _ & -> & _).
  unfold e'. rewrite employee_at_store, decide_True by done. simpl.
  repeat split; try done.
  intros j Hj. by rewrite lookup_insert_ne.
Qed.

Lemma registered_reviews st i rid r :
  registered st ->
  Employee.reviews (employee_at st i) !! rid = Some r ->
  exists_at st i = true.
Proof.
  intros Hreg Hr. destruct (exists_at st i) eqn:Hex; [done|].
  apply Hreg in Hex. unfold employee_at in Hr. rewrite Hex in Hr.
  simpl in Hr. by rewrite lookup_empty in Hr.
Qed.

Lemma abi_decode_uint32_Err data f :
  abi_decode_uint32 data = Err f -> f = DecodeRevert.
Proof.
  unfold abi_decode_uint32. repeat case_match; congruence.
Qed.

Lemma verifyReview_Err st i rid clear proof f :
  verifyReview FHE st i rid clear proof = Err f ->
  let r := Employee.review (employee_at st i) rid in
  (exists_at st i = false /\ f = Revert "Employee does not exist") \/
  (Review.isVerified r = true /\ f = Revert "Review already verified") \/
  (checkSignatures FHE [Review.encryptedScore r] clear proof = false /\
   f = FheRevert) \/
  (checkSignatures FHE [Review.encryptedScore r] clear proof = true /\
   (f = DecodeRevert \/ f = Panic 17)).
Proof.
  unfold_ops. unfold toBytes32.
  repeat bind_step; intros [= <-]; simpl;
    try match goal with
        | H : abi_decode_uint32 _ = Err _ |- _ =>
            apply abi_decode_uint32_Err in H as ->
        end;
    try match goal with
        | H : negb _ = false |- _ => apply negb_false_iff in H
        end;
    tauto.
Qed.

(** C7: in every reachable state, a [verifyReview] call against a review
    with [isVerified == true] fails with "Review already verified"
    (AlreadyVerified) whatever clear value and attestation it carries, and
    the storage, hence [totalScore] and [reviewCount], is unchanged. *)
Theorem verifyReview_already_verified txs env i rid r clear proof :
  let st := run FHE initial txs in
  let tx := mkTx env (VerifyReview i rid clear proof) in
  Employee.reviews (employee_at st i) !! rid = Some r ->
  Review.isVerified r = true ->
  outcome FHE st tx = Err (Revert "Review already verified") /\
  error_kind (Revert "Review already verified") = Some AlreadyVerified /\
  apply_tx FHE st tx = st /\
  Employee.totalScore (employee_at (apply_tx FHE st tx) i)
    = Employee.totalScore (employee_at st i) /\
  Employee.reviewCount (employee_at (apply_tx FHE st tx) i)
    = Employee.reviewCount (employee_at st i).
Proof.
  intros st tx Hr Hv.
  assert (exists_at st i = true) as Hex.
  { eapply registered_reviews; [|done].
    apply registered_run, registered_initial. }
  unfold outcome, apply_tx, dispatch, tx; simpl.
  unfold verifyReview, require, Employee.review.
  rewrite Hex, Hr; simpl. rewrite Hv. done.
Qed.

(** C8 (amended): for a [submitReview] call where the employee exists,
    [weight > 0] and the supplied [departmentId] differs from the recorded
    one, the call always fails and creates or overwrites no review. The
    ingest of the ciphertext runs first: when the service rejects it the
    failure is InvalidProof; when the service accepts it the failure is
    "Department mismatch" (DepartmentMismatch). *)
Theorem submitReview_department_mismatch st env i ct p w d :
  exists_at st i = true ->
  0 < w ->
  Employee.departmentId (employee_at st i) <> d ->
  let tx := mkTx env (SubmitReview i ct p w d) in
  apply_tx FHE st tx = st /\
  match fromExternal FHE ct p with
  | None =>
      outcome FHE st tx = Err FheRevert /\
      error_kind FheRevert = Some InvalidProof
  | Some h =>
      if isInitialized FHE h then
        outcome FHE st tx = Err (Revert "Department mismatch") /\
        error_kind (Revert "Department mismatch") = Some DepartmentMismatch
      else
        outcome FHE st tx = Err (Revert "Invalid encrypted input") /\
        error_kind (Revert "Invalid encrypted input") = Some InvalidProof
  end.
Proof.
  intros Hex Hw Hd tx.
  apply N.ltb_lt in Hw. apply N.eqb_neq in Hd.
  unfold outcome, apply_tx, dispatch, tx; simpl.
  unfold submitReview, require, FHE_fromExternal.
  rewrite Hex, Hw. cbn [mbind result_bind].
  destruct (fromExternal FHE ct p) as [h|]; cbn [mbind result_bind]; [|done].
  destruct (isInitialized FHE h); cbn [mbind result_bind]; [|done].
  rewrite Hd. done.
Qed.

(** C3 (amended): for an existing employee and a [reviewId] under which no
    review is stored, [verifyReview] never fails with NotFound: the contract
    has no existence check for reviews and submits the attestation for the
    zero handle to the service. When the service rejects it, the call fails
    with InvalidProof and the storage is unchanged; in every case the
    employee's [totalScore] is unchanged, and [reviewCount] changes only if
    the call succeeds. *)
Theorem verifyReview_unknown_review st env i rid clear proof :
  exists_at st i = true ->
  Employee.reviews (employee_at st i) !! rid = None ->
  let tx := mkTx env (VerifyReview i rid clear proof) in
  let st' := apply_tx FHE st tx in
  (forall f, outcome FHE st tx = Err f -> error_kind f <> Some NotFound) /\
  (checkSignatures FHE [0] clear proof = false ->
   outcome FHE st tx = Err FheRevert /\
   error_kind FheRevert = Some InvalidProof /\ st' = st) /\
  Employee.totalScore (employee_at st' i)
    = Employee.totalScore (employee_at st i) /\
  (forall f, outcome FHE st tx = Err f ->
     Employee.reviewCount (employee_at st' i)
       = Employee.reviewCount (employee_at st i)).
Proof.
  intros Hex Hr tx st'.
  assert (Employee.review (employee_at st i) rid = Review.zero) as Hzero
    by (unfold Employee.review; by rewrite Hr).
  unfold st', outcome, apply_tx, dispatch, tx; simpl.
  destruct (verifyReview FHE st i rid clear proof) as [[st1 effs]|f0] eqn:Hop.
  - apply verifyReview_Ok in Hop as (v & _ & _ & Hsig & _ & _ & _ & -> & _).
    rewrite Hzero in *. simpl in Hsig.
    rewrite employee_at_store, decide_True by done. simpl.
    repeat split; try done; try congruence. lia.
  - apply verifyReview_Err in Hop. rewrite Hzero in Hop; simpl in Hop.
    split; [|split; [|done]].
    + intros f [= <-].
      destruct Hop as [[? ->]|[[? ->]|[[? ->]|[_ [->| ->]]]]];
        simpl; congruence.
    + intros Hsig.
      destruct Hop as [[? ->]|[[? ->]|[[? ->]|[? _]]]]; try congruence.
      done.
Qed.

Lemma count_verified_empty : count_verified ∅ = 0%nat.
Proof. unfold count_verified. by rewrite map_filter_empty, map_size_empty. Qed.

Lemma weighted_sum_empty : weighted_sum ∅ = 0.
Proof. unfold weighted_sum. by rewrite map_fold_empty. Qed.

Lemma unregistered_zero st i :
  registered st -> exists_at st i = false -> employee_at st i = Employee.zero.
Proof.
  intros Hreg Hex. unfold employee_at. by rewrite (Hreg i Hex).
Qed.

(** [reviewCount] counts the verified reviews of [id]. *)
Lemma count_step st tx id :
  registered st ->
  clobbers FHE st tx id = false ->
  Employee.reviewCount (employee_at st id)
    = N.of_nat (count_verified (Employee.reviews (employee_at st id))) ->
  Employee.reviewCount (employee_at (apply_tx FHE st tx) id)
    = N.of_nat
        (count_verified
           (Employee.reviews (employee_at (apply_tx FHE st tx) id))).
Proof.
  intros Hreg Hclob Hinv. unfold clobbers in Hclob.
  unfold apply_tx. destruct (dispatch FHE st tx) as [[st' effs]|] eqn:Hop;
    [|done].
  unfold dispatch in Hop.
  destruct tx as [env [i n d|i ct p w d|i rid c p|i]]; simpl in *.
  - apply addEmployee_Ok in Hop as (Hex & -> & _).
    unfold employee_at at 1 3; simpl. rewrite lookup_insert.
    case_decide as Hi; [|done]. simpl.
    rewrite (unregistered_zero st i Hreg Hex). simpl.
    by rewrite count_verified_empty.
  - apply submitReview_Ok in Hop as (h & _ & _ & _ & _ & _ & ->).
    rewrite employee_at_store. case_decide as Hi; [|done]. subst id.
    rewrite bool_decide_eq_true_2 in Hclob by done. simpl in Hclob.
    simpl. rewrite Hinv. f_equal.
    pose proof (count_verified_insert (Employee.reviews (employee_at st i))
      (derive_reviewId i (block_timestamp env))
      (Review.mk h w d (msg_sender env) (block_timestamp env) 0 false)) as Hc.
    unfold Employee.review in Hclob. unfold indicator in Hc at 1 2.
    rewrite Hclob in Hc. simpl in Hc. lia.
  - apply verifyReview_Ok in Hop as (v & _ & Hnv & _ & _ & _ & _ & -> & _).
    rewrite employee_at_store. case_decide as Hi; [|done]. subst id.
    simpl. rewrite Hinv.
    pose proof (count_verified_insert (Employee.reviews (employee_at st i))
      rid (Review.set_verified (Employee.review (employee_at st i) rid) v))
      as Hc.
    unfold Employee.review in Hnv. unfold indicator in Hc at 1 2.
    rewrite Hnv in Hc. simpl in Hc. lia.
  - apply calculateFinalScore_Ok in Hop as (_ & _ & -> & _).
    rewrite employee_at_store. case_decide as Hi; [|done]. by subst id.
Qed.

(** C2 (amended): after every sequence of public calls in which no
    successful [submitReview] lands on the id of an already verified review
    of the employee, the employee's [reviewCount] equals the number of its
    stored reviews with [isVerified == true]. *)
Theorem reviewCount_counts_verified txs id :
  avoids FHE (fun st tx => clobbers FHE st tx id) initial txs = true ->
  let e := employee_at (run FHE initial txs) id in
  Employee.reviewCount e = N.of_nat (count_verified (Employee.reviews e)).
Proof.
  intros Hav. cbv zeta.
  assert (forall st,
    registered st ->
    avoids FHE (fun st tx => clobbers FHE st tx id) st txs = true ->
    Employee.reviewCount (employee_at st id)
      = N.of_nat (count_verified (Employee.reviews (employee_at st id))) ->
    Employee.reviewCount (employee_at (run FHE st txs) id)
      = N.of_nat
          (count_verified (Employee.reviews (employee_at (run FHE st txs) id))))
    as Hgen.
  { clear Hav. induction txs as [|tx txs IH]; intros st Hreg Hav Hinv; [done|].
    simpl in Hav. apply andb_prop in Hav as [Hc Hav].
    apply negb_true_iff in Hc.
    apply IH; [by apply registered_step|done|by apply count_step]. }
  apply Hgen; [apply registered_initial|done|].
  unfold employee_at, initial; simpl. rewrite lookup_empty. simpl.
  by rewrite count_verified_empty.
Qed.

(** Before finalisation, [totalScore] is the weighted sum of the verified
    reviews of [id]. *)
Lemma sum_step st tx id :
  registered st ->
  clobbers FHE st tx id = false ->
  finalizes tx id = false ->
  Employee.totalScore (employee_at st id)
    = weighted_sum (Employee.reviews (employee_at st id)) ->
  Employee.totalScore (employee_at (apply_tx FHE st tx) id)
    = weighted_sum (Employee.reviews (employee_at (apply_tx FHE st tx) id)).
Proof.
  intros Hreg Hclob Hfin Hinv. unfold clobbers in Hclob.
  unfold finalizes in Hfin.
  unfold apply_tx. destruct (dispatch FHE st tx) as [[st' effs]|] eqn:Hop;
    [|done].
  unfold dispatch in Hop.
  destruct tx as [env [i n d|i ct p w d|i rid c p|i]]; simpl in *.
  - apply addEmployee_Ok in Hop as (Hex & -> & _).
    unfold employee_at at 1 3; simpl. rewrite lookup_insert.
    case_decide as Hi; [|done]. simpl.
    rewrite (unregistered_zero st i Hreg Hex). simpl.
    by rewrite weighted_sum_empty.
  - apply submitReview_Ok in Hop as (h & _ & _ & _ & _ & _ & ->).
    rewrite employee_at_store. case_decide as Hi; [|done]. subst id.
    rewrite bool_decide_eq_true_2 in Hclob by done. simpl in Hclob.
    simpl. rewrite Hinv.
    pose proof (weighted_sum_insert (Employee.reviews (employee_at st i))
      (derive_reviewId i (block_timestamp env))
      (Review.mk h w d (msg_sender env) (block_timestamp env) 0 false)) as Hc.
    unfold Employee.review in Hclob. unfold contribution in Hc at 1 2.
    rewrite Hclob in Hc. simpl in Hc. lia.
  - apply verifyReview_Ok in Hop as (v & _ & Hnv & _ & _ & _ & _ & -> & _).
    rewrite employee_at_store. case_decide as Hi; [|done]. subst id.
    simpl. rewrite Hinv.
    pose proof (weighted_sum_insert (Employee.reviews (employee_at st i))
      rid (Review.set_verified (Employee.review (employee_at st i) rid) v))
      as Hc.
    unfold Employee.review in Hnv. unfold contribution in Hc at 1 2.
    rewrite Hnv in Hc. simpl in Hc. unfold Employee.review in *. lia.
  - apply calculateFinalScore_Ok in Hop as (_ & _ & -> & _).
    rewrite employee_at_store. case_decide as Hi; [|done]. subst id.
    by rewrite bool_decide_eq_true_2 in Hfin.
Qed.

(** C6 (amended): in every state reached by a sequence of public calls in
    which [calculateFinalScore] was not called for the employee and no
    successful [submitReview] landed on the id of an already verified review
    of the employee, the employee's [totalScore] equals the sum of
    [decryptedScore * weight] over its verified reviews. *)
Theorem totalScore_is_weighted_sum txs id :
  avoids FHE
    (fun st tx => clobbers FHE st tx id || finalizes tx id) initial txs
    = true ->
  let e := employee_at (run FHE initial txs) id in
  Employee.totalScore e = weighted_sum (Employee.reviews e).
Proof.
  intros Hav. cbv zeta.
  assert (forall st,
    registered st ->
    avoids FHE
      (fun st tx => clobbers FHE st tx id || finalizes tx id) st txs = true ->
    Employee.totalScore (employee_at st id)
      = weighted_sum (Employee.reviews (employee_at st id)) ->
    Employee.totalScore (employee_at (run FHE st txs) id)
      = weighted_sum (Employee.reviews (employee_at (run FHE st txs) id)))
    as Hgen.
  { clear Hav. induction txs as [|tx txs IH]; intros st Hreg Hav Hinv; [done|].
    simpl in Hav. apply andb_prop in Hav as [Hc Hav].
    apply negb_true_iff, orb_false_iff in Hc as [Hc Hf].
    apply IH; [by apply registered_step|done|by apply sum_step]. }
  apply Hgen; [apply registered_initial|done|].
  unfold employee_at, initial; simpl. rewrite lookup_empty. simpl.
  by rewrite weighted_sum_empty.
Qed.

(** A verified review stays as it is under any call but a [submitReview]
    that derives its id. *)
Lemma verified_step st tx id rid r :
  Employee.reviews (employee_at st id) !! rid = Some r ->
  Review.isVerified r = true ->
  rewrites FHE st tx id rid = false ->
  Employee.reviews (employee_at (apply_tx FHE st tx) id) !! rid = Some r.
Proof.
  intros Hr Hv Hrw. unfold rewrites in Hrw.
  unfold apply_tx. destruct (dispatch FHE st tx) as [[st' effs]|] eqn:Hop;
    [|done].
  unfold dispatch in Hop.
  destruct tx as [env [i n d|i ct p w d|i rid' c p|i]]; simpl in *.
  - apply addEmployee_Ok in Hop as (Hex & -> & _).
    unfold employee_at at 1; simpl. rewrite lookup_insert.
    case_decide as Hi; [|done]. by subst id.
  - apply submitReview_Ok in Hop as (h & _ & _ & _ & _ & _ & ->).
    rewrite employee_at_store. case_decide as Hi; [|done]. subst id.
    rewrite bool_decide_eq_true_2 in Hrw by done. simpl in Hrw.
    apply bool_decide_eq_false in Hrw.
    simpl. by rewrite lookup_insert_ne.
  - apply verifyReview_Ok in Hop as (v & _ & Hnv & _ & _ & _ & _ & -> & _).
    rewrite employee_at_store. case_decide as Hi; [|done]. subst id.
    simpl. rewrite lookup_insert_ne; [done|].
    intros ->. unfold Employee.review in Hnv. rewrite Hr in Hnv.
    simpl in Hnv. congruence.
  - apply calculateFinalScore_Ok in Hop as (_ & _ & -> & _).
    rewrite employee_at_store. case_decide as Hi; [|done]. by subst id.
Qed.

(** C4 (amended): once a review has [isVerified == true], every sequence of
    public calls that contains no successful [submitReview] deriving that
    review's id for that employee leaves the review stored and unchanged:
    still verified, with the same [decryptedScore]. *)
Theorem verified_is_terminal st txs id rid r :
  Employee.reviews (employee_at st id) !! rid = Some r ->
  Review.isVerified r = true ->
  avoids FHE (fun st tx => rewrites FHE st tx id rid) st txs = true ->
  Employee.reviews (employee_at (run FHE st txs) id) !! rid = Some r.
Proof.
  revert st. induction txs as [|tx txs IH]; intros st Hr Hv Hav; [done|].
  simpl in Hav. apply andb_prop in Hav as [Hc Hav].
  apply negb_true_iff in Hc.
  apply IH; [|done|done]. by apply verified_step.
Qed.

End Claims.

(** ** The claims on concrete ledgers *)

(** [verifyReview_accumulates] on the review of weight 2 submitted for E1,
    verified with the clear value 8. *)
Lemma verifyReview_accumulates_E1 :
  let st := run fhe_accepting initial [add_E1; submit_E1 1000 2] in
  let tx := verify_E1 1012 1000 8 in
  let e' := employee_at (apply_tx fhe_accepting st tx) "E1" in
  outcome fhe_accepting st tx = Ok [Emit (ReviewDecrypted "E1" 8)] /\
  Employee.reviews e' !! rid_E1 1000 = Some (Review.mk 55 2 10 7 1000 8 true) /\
  Employee.totalScore e' = 0 + 8 * 2 /\
  Employee.reviewCount e' = 0 + 1.
Proof.
  apply (proj1 (verifyReview_accumulates fhe_accepting)
           (run fhe_accepting initial [add_E1; submit_E1 1000 2])
           (mkEnv 7 1012) "E1" (rid_E1 1000)
           (Review.mk 55 2 10 7 1000 0 false) (abi_encode_uint32 8) [] 8);
    vm_compute; first [reflexivity | discriminate].
Defined.

(** [calculateFinalScore_floor] on the ledger with [totalScore] 34 and
    [reviewCount] 2. *)
Lemma calculateFinalScore_floor_E1 :
  let st := run fhe_accepting initial two_verified in
  let tx := finalize_E1 1048 in
  let q := Employee.totalScore (employee_at (apply_tx fhe_accepting st tx) "E1") in
  outcome fhe_accepting st tx = Ok [Emit (FinalScoreCalculated "E1" q)] /\
  q = 34 / 2 /\
  q * 2 <= 34 < (q + 1) * 2.
Proof.
  apply (proj1 (calculateFinalScore_floor fhe_accepting)
           (run fhe_accepting initial two_verified) (mkEnv 7 1048) "E1");
    vm_compute; reflexivity.
Defined.

(** [calculateFinalScore_empty] on an employee without verified reviews. *)
Lemma calculateFinalScore_empty_E1 :
  let st := run fhe_accepting initial [add_E1; submit_E1 1000 2] in
  let tx := finalize_E1 1048 in
  outcome fhe_accepting st tx = Err (Revert "No reviews available") /\
  error_kind (Revert "No reviews available") = Some EmptyAggregation /\
  apply_tx fhe_accepting st tx = st /\
  Employee.totalScore (employee_at (apply_tx fhe_accepting st tx) "E1")
    = Employee.totalScore (employee_at st "E1").
Proof.
  apply (calculateFinalScore_empty fhe_accepting
           (run fhe_accepting initial [add_E1; submit_E1 1000 2])
           (mkEnv 7 1048) "E1");
    vm_compute; reflexivity.
Defined.

(** [calculateFinalScore_frame] on the ledger with two verified reviews. *)
Lemma calculateFinalScore_frame_E1 :
  let st := run fhe_accepting initial two_verified in
  let st' := apply_tx fhe_accepting st (finalize_E1 1048) in
  calculateFinalScore st "E1"
    = Ok (st', [Emit (FinalScoreCalculated "E1" 17)]) /\
  Employee.reviewCount (employee_at st' "E1") = 2 /\
  Employee.reviews (employee_at st' "E1")
    = Employee.reviews (employee_at st "E1") /\
  departmentEmployees st' = departmentEmployees st.
Proof.
  assert (calculateFinalScore (run fhe_accepting initial two_verified) "E1"
          = Ok (apply_tx fhe_accepting
                  (run fhe_accepting initial two_verified) (finalize_E1 1048),
                [Emit (FinalScoreCalculated "E1" 17)])) as Hop
    by (vm_compute; reflexivity).
  pose proof (calculateFinalScore_frame _ _ _ _ Hop)
    as (_ & _ & Hcount & _ & Hreviews & _ & Hdept & _).
  split; [exact Hop|].
  split; [exact Hcount|].
  split; [exact Hreviews|exact Hdept].
Defined.

(** [verifyReview_already_verified] on the verified review of E1: a second
    verification, even with an attestation the service accepts, fails. *)
Lemma verifyReview_already_verified_E1 :
  let st := run fhe_accepting initial one_verified in
  let tx := verify_E1 1024 1000 8 in
  outcome fhe_accepting st tx = Err (Revert "Review already verified") /\
  error_kind (Revert "Review already verified") = Some AlreadyVerified /\
  apply_tx fhe_accepting st tx = st /\
  Employee.totalScore (employee_at (apply_tx fhe_accepting st tx) "E1") = 16 /\
  Employee.reviewCount (employee_at (apply_tx fhe_accepting st tx) "E1") = 1.
Proof.
  apply (verifyReview_already_verified fhe_accepting one_verified
           (mkEnv 7 1024) "E1" (rid_E1 1000)
           (Review.mk 55 2 10 7 1000 8 true) (abi_encode_uint32 8) []);
    vm_compute; reflexivity.
Defined.

(** [submitReview_department_mismatch] where the service accepts the
    input: the department check is the one that fails. *)
Lemma submitReview_department_mismatch_E1 :
  let st := run fhe_accepting initial [add_E1] in
  apply_tx fhe_accepting st wrong_department = st /\
  outcome fhe_accepting st wrong_department
    = Err (Revert "Department mismatch") /\
  error_kind (Revert "Department mismatch") = Some DepartmentMismatch.
Proof.
  assert (exists_at (run fhe_accepting initial [add_E1]) "E1" = true) as Hex
    by (vm_compute; reflexivity).
  assert (0 < 1) as Hw by lia.
  assert (Employee.departmentId
            (employee_at (run fhe_accepting initial [add_E1]) "E1") <> 11)
    as Hd by (vm_compute; discriminate).
  exact (submitReview_department_mismatch fhe_accepting
           (run fhe_accepting initial [add_E1]) (mkEnv 7 1000) "E1" 55 [] 1 11
           Hex Hw Hd).
Defined.

(** [verifyReview_unknown_review] where the service rejects the
    attestation. *)
Lemma verifyReview_unknown_review_E1 :
  let st := run fhe_no_attest initial [add_E1] in
  let tx := verify_unknown 8 in
  let st' := apply_tx fhe_no_attest st tx in
  (forall f, outcome fhe_no_attest st tx = Err f ->
     error_kind f <> Some NotFound) /\
  (checkSignatures fhe_no_attest [0] (abi_encode_uint32 8) [] = false ->
   outcome fhe_no_attest st tx = Err FheRevert /\
   error_kind FheRevert = Some InvalidProof /\ st' = st) /\
  Employee.totalScore (employee_at st' "E1")
    = Employee.totalScore (employee_at st "E1") /\
  (forall f, outcome fhe_no_attest st tx = Err f ->
     Employee.reviewCount (employee_at st' "E1")
       = Employee.reviewCount (employee_at st "E1")).
Proof.
  apply (verifyReview_unknown_review fhe_no_attest
           (run fhe_no_attest initial [add_E1]) (mkEnv 7 1000) "E1"
           "E1_unknown" (abi_encode_uint32 8) []);
    vm_compute; reflexivity.
Defined.

(** [reviewCount_counts_verified] on the ledger with two verified
    reviews. *)
Lemma reviewCount_counts_verified_E1 :
  avoids fhe_accepting (fun st tx => clobbers fhe_accepting st tx "E1")
    initial two_verified = true /\
  (let e := employee_at (run fhe_accepting initial two_verified) "E1" in
   Employee.reviewCount e = N.of_nat (count_verified (Employee.reviews e))).
Proof.
  split; [vm_compute; reflexivity|].
  apply (reviewCount_counts_verified fhe_accepting two_verified "E1").
  vm_compute; reflexivity.
Defined.

(** [totalScore_is_weighted_sum] on the ledger with two verified reviews. *)
Lemma totalScore_is_weighted_sum_E1 :
  avoids fhe_accepting
    (fun st tx => clobbers fhe_accepting st tx "E1" || finalizes tx "E1")
    initial two_verified = true /\
  (let e := employee_at (run fhe_accepting initial two_verified) "E1" in
   Employee.totalScore e = weighted_sum (Employee.reviews e)).
Proof.
  split; [vm_compute; reflexivity|].
  apply (totalScore_is_weighted_sum fhe_accepting two_verified "E1").
  vm_compute; reflexivity.
Defined.

(** [verified_is_terminal]: the verified review of E1 survives a later
    submission, a finalisation and a second verification attempt. *)
Lemma verified_is_terminal_E1 :
  let st := run fhe_accepting initial one_verified in
  let txs := [submit_E1 1024 3; finalize_E1 1036; verify_E1 1048 1000 9] in
  Employee.reviews (employee_at st "E1") !! rid_E1 1000
    = Some (Review.mk 55 2 10 7 1000 8 true) /\
  Employee.reviews (employee_at (run fhe_accepting st txs) "E1")
    !! rid_E1 1000
    = Some (Review.mk 55 2 10 7 1000 8 true).
Proof.
  split; [vm_compute; reflexivity|].
  apply (verified_is_terminal fhe_accepting
           (run fhe_accepting initial one_verified)
           [submit_E1 1024 3; finalize_E1 1036; verify_E1 1048 1000 9]
           "E1" (rid_E1 1000) (Review.mk 55 2 10 7 1000 8 true));
    vm_compute; reflexivity.
Defined.

(** ** Where the specification and the contract part *)

(** C1, as stated, fails on overflow: a pending review of weight
    [2^256 - 1] and an accepted attestation for the clear value 2 make
    [decodedValue * review.weight] overflow; the call reverts with
    [Panic(0x11)] and the review stays pending. *)
Lemma verifyReview_overflow_reverts :
  let st := run fhe_accepting initial heavy in
  let tx := verify_E1 1012 1000 2 in
  let e' := employee_at (apply_tx fhe_accepting st tx) "E1" in
  exists_at st "E1" = true /\
  Employee.reviews (employee_at st "E1") !! rid_E1 1000
    = Some (Review.mk 55 uint256_max 10 7 1000 0 false) /\
  checkSignatures fhe_accepting [55] (abi_encode_uint32 2) [] = true /\
  abi_decode_uint32 (abi_encode_uint32 2) = Ok 2 /\
  outcome fhe_accepting st tx = Err (Panic 17) /\
  Employee.reviews e' !! rid_E1 1000
    = Some (Review.mk 55 uint256_max 10 7 1000 0 false) /\
  Employee.totalScore e' = 0 /\
  Employee.reviewCount e' = 0.
Proof. vm_compute. repeat split; reflexivity. Qed.

(** C2, as stated, fails: a submission, its verification and a second
    submission with one block timestamp leave [reviewCount] at 1 with no
    verified review stored. *)
Lemma reviewCount_exceeds_verified :
  let e := employee_at (run fhe_accepting initial same_block) "E1" in
  Employee.reviewCount e = 1 /\
  count_verified (Employee.reviews e) = 0%nat /\
  Employee.reviewCount e <> N.of_nat (count_verified (Employee.reviews e)).
Proof. vm_compute. repeat split; [reflexivity..|discriminate]. Qed.

(** C3, as stated, fails: for an id no submission derived, the call
    succeeds and counts a review when the service accepts the attestation
    for the zero handle, and fails with InvalidProof, not NotFound, when the
    service rejects it. *)
Lemma verifyReview_unknown_not_NotFound :
  let st := run fhe_accepting initial [add_E1] in
  let tx := verify_unknown 8 in
  let e' := employee_at (apply_tx fhe_accepting st tx) "E1" in
  exists_at st "E1" = true /\
  Employee.reviews (employee_at st "E1") !! "E1_unknown" = None /\
  outcome fhe_accepting st tx = Ok [Emit (ReviewDecrypted "E1" 8)] /\
  Employee.reviewCount (employee_at st "E1") = 0 /\
  Employee.reviewCount e' = 1 /\
  Employee.reviews e' !! "E1_unknown" = Some (Review.mk 0 0 0 0 0 8 true) /\
  outcome fhe_no_attest (run fhe_no_attest initial [add_E1]) tx
    = Err FheRevert /\
  error_kind FheRevert = Some InvalidProof.
Proof. vm_compute. repeat split; reflexivity. Qed.

(** C4, as stated, fails: a [submitReview] in the block of a verified
    review derives the same id and writes the review back to pending, with
    [decryptedScore] 0. *)
Lemma resubmission_reopens_verified :
  let st := run fhe_accepting initial verified_in_block in
  let tx := submit_E1 1000 2 in
  Employee.reviews (employee_at st "E1") !! rid_E1 1000
    = Some (Review.mk 55 2 10 7 1000 8 true) /\
  outcome fhe_accepting st tx
    = Ok [AllowThis 55; MakePubliclyDecryptable 55;
          Emit (ReviewSubmitted "E1" 7)] /\
  Employee.reviews (employee_at (apply_tx fhe_accepting st tx) "E1")
    !! rid_E1 1000
    = Some (Review.mk 55 2 10 7 1000 0 false).
Proof. vm_compute. repeat split; reflexivity. Qed.

(** C6, as stated, fails: with no [calculateFinalScore] call at all, the
    second submission of [same_block] leaves [totalScore] at 16 while the
    verified reviews sum to 0. *)
Lemma totalScore_exceeds_weighted_sum :
  let e := employee_at (run fhe_accepting initial same_block) "E1" in
  forallb (fun tx => negb (finalizes tx "E1")) same_block = true /\
  Employee.totalScore e = 16 /\
  weighted_sum (Employee.reviews e) = 0 /\
  Employee.totalScore e <> weighted_sum (Employee.reviews e).
Proof. vm_compute. repeat split; [reflexivity..|discriminate]. Qed.

(** C8, as stated, fails: the ingest runs before the department check, so
    a submission with the wrong department and an input the service rejects
    fails with InvalidProof, not DepartmentMismatch. *)
Lemma submitReview_ingest_before_department :
  let st := run fhe_no_ingest initial [add_E1] in
  exists_at st "E1" = true /\
  Employee.departmentId (employee_at st "E1") = 10 /\
  outcome fhe_no_ingest st wrong_department = Err FheRevert /\
  error_kind FheRevert = Some InvalidProof /\
  error_kind FheRevert <> Some DepartmentMismatch.
Proof. vm_compute. repeat split; [reflexivity..|discriminate]. Qed.

(** * Further properties of the ledger *)

(** ** Every transaction, by cases *)

Section Steps.
Variable FHE : FheService.
Implicit Types (st : State) (tx : Tx) (env : Env) (i id rid : string).

Lemma abi_decode_uint32_Ok data v :
  abi_decode_uint32 data = Ok v ->
  (32 <= length data)%nat /\ v = be_value (take 32 data) /\ v <= uint32_max.
Proof.
  unfold abi_decode_uint32.
  destruct (length data <? 32)%nat eqn:Hlen; [done|].
  apply Nat.ltb_ge in Hlen.
  destruct (be_value (take 32 data) <=? uint32_max) eqn:Hv; [|done].
  apply N.leb_le in Hv. by intros [= <-].
Qed.

(** A transaction either leaves the storage as it is (a revert), or is one
    of the four successful calls with the write that call makes. *)
Lemma apply_tx_cases st tx :
  apply_tx FHE st tx = st \/
  (exists i n d,
      tx_call tx = AddEmployee i n d /\ exists_at st i = false /\
      apply_tx FHE st tx
      = mkState
          (<[i := Employee.mk i n 0 0 d
                    (Employee.reviews (employee_at st i))]> (employees st))
          (<[d := department_at st d ++ [i]]> (departmentEmployees st))
          (<[i := true]> (employeeExists st))) \/
  (exists i ct p w d h,
      tx_call tx = SubmitReview i ct p w d /\ exists_at st i = true /\
      0 < w /\ fromExternal FHE ct p = Some h /\
      isInitialized FHE h = true /\
      Employee.departmentId (employee_at st i) = d /\
      apply_tx FHE st tx
      = store_employee st i
          (Employee.set_review (employee_at st i)
             (derive_reviewId i (block_timestamp (tx_env tx)))
             (Review.mk h w d (msg_sender (tx_env tx))
                (block_timestamp (tx_env tx)) 0 false))) \/
  (exists i rid clear proof v,
      tx_call tx = VerifyReview i rid clear proof /\
      exists_at st i = true /\
      Review.isVerified (Employee.review (employee_at st i) rid) = false /\
      checkSignatures FHE
        [Review.encryptedScore (Employee.review (employee_at st i) rid)]
        clear proof = true /\
      abi_decode_uint32 clear = Ok v /\
      Employee.totalScore (employee_at st i)
        + v * Review.weight (Employee.review (employee_at st i) rid)
        <= uint256_max /\
      Employee.reviewCount (employee_at st i) + 1 <= uint256_max /\
      apply_tx FHE st tx
      = store_employee st i
          (Employee.set_reviewCount
             (Employee.set_totalScore
                (Employee.set_review (employee_at st i) rid
                   (Review.set_verified
                      (Employee.review (employee_at st i) rid) v))
                (Employee.totalScore (employee_at st i)
                   + v * Review.weight
                           (Employee.review (employee_at st i) rid)))
             (Employee.reviewCount (employee_at st i) + 1))) \/
  (exists i,
      tx_call tx = CalculateFinalScore i /\ exists_at st i = true /\
      0 < Employee.reviewCount (employee_at st i) /\
      apply_tx FHE st tx
      = store_employee st i
          (Employee.set_totalScore (employee_at st i)
             (Employee.totalScore (employee_at st i)
                / Employee.reviewCount (employee_at st i)))).
Proof.
  unfold apply_tx.
  destruct (dispatch FHE st tx) as [[st' effs]|] eqn:Hop; [|by left].
  right. unfold dispatch in Hop.
  destruct tx as [env [i n d|i ct p w d|i rid c p|i]]; simpl in *.
  - apply addEmployee_Ok in Hop as (Hex & -> & _).
    left. by exists i, n, d.
  - apply submitReview_Ok in Hop as (h & ? & ? & ? & ? & ? & ->).
    right; left. by exists i, ct, p, w, d, h.
  - apply verifyReview_Ok in Hop as (v & ? & ? & ? & ? & ? & ? & -> & _).
    right; right; left. by exists i, rid, c, p, v.
  - apply calculateFinalScore_Ok in Hop as (? & ? & -> & _).
    right; right; right. by exists i.
Qed.

Lemma run_invariant (P : State -> Prop) :
  (forall st tx, P st -> P (apply_tx FHE st tx)) ->
  forall txs st, P st -> P (run FHE st txs).
Proof.
  intros Hstep txs. induction txs as [|tx txs IH]; intros st HP; [done|].
  apply IH, Hstep, HP.
Qed.

Lemma run_app st txs1 txs2 :
  run FHE st (txs1 ++ txs2) = run FHE (run FHE st txs1) txs2.
Proof. unfold run. apply fold_left_app. Qed.

(** Registration is for good, and fixes the identity of the employee. *)
Lemma identity_step st tx i :
  exists_at st i = true ->
  let e := employee_at st i in
  let e' := employee_at (apply_tx FHE st tx) i in
  exists_at (apply_tx FHE st tx) i = true /\
  Employee.employeeId e' = Employee.employeeId e /\
  Employee.name e' = Employee.name e /\
  Employee.departmentId e' = Employee.departmentId e.
Proof.
  intros Hex e e'. unfold e'.
  destruct (apply_tx_cases st tx) as
    [->|[(j & n & d & _ & Hj & ->)|[(j & ct & p & w & d & h & _ & _ & _ & _ & _ & _ & ->)
    |[(j & rid & c & p & v & _ & _ & _ & _ & _ & _ & _ & ->)
    |(j & _ & _ & _ & ->)]]]]; [done|..].
  - unfold exists_at, employee_at; simpl. rewrite !lookup_insert.
    case_decide; [congruence|]. done.
  - rewrite exists_at_store, employee_at_store. case_decide; by subst.
  - rewrite exists_at_store, employee_at_store. case_decide; by subst.
  - rewrite exists_at_store, employee_at_store. case_decide; by subst.
Qed.

Lemma identity_run txs st i :
  exists_at st i = true ->
  exists_at (run FHE st txs) i = true /\
  Employee.employeeId (employee_at (run FHE st txs) i)
    = Employee.employeeId (employee_at st i) /\
  Employee.name (employee_at (run FHE st txs) i)
    = Employee.name (employee_at st i) /\
  Employee.departmentId (employee_at (run FHE st txs) i)
    = Employee.departmentId (employee_at st i).
Proof.
  revert st. induction txs as [|tx txs IH]; intros st Hex; [done|].
  destruct (identity_step st tx i Hex) as (Hex' & Hid & Hn & Hd).
  destruct (IH (apply_tx FHE st tx) Hex') as (? & ? & ? & ?).
  simpl. repeat split; congruence.
Qed.

(** ** Registration *)

(** X1: [addEmployee] for an unregistered id succeeds without effects on the
    outside; afterwards the id is registered, [getEmployee] returns the name
    and department given with zero totals, and the id is the last entry of
    its department's list. *)
Theorem addEmployee_registers st env i n d :
  exists_at st i = false ->
  let tx := mkTx env (AddEmployee i n d) in
  let st' := apply_tx FHE st tx in
  outcome FHE st tx = Ok [] /\
  exists_at st' i = true /\
  getEmployee st' i = Ok (n, 0, 0, d) /\
  getDepartmentEmployees st' d = getDepartmentEmployees st d ++ [i].
Proof.
  intros Hex tx st'.
  unfold st', outcome, apply_tx, dispatch, tx; simpl.
  unfold addEmployee, require. rewrite Hex. cbn [negb mbind result_bind].
  unfold getEmployee, getDepartmentEmployees, require, exists_at,
    employee_at, department_at; simpl.
  rewrite !lookup_insert_eq. done.
Qed.

(** X2: an employee is registered at most once: whatever calls follow a
    registration, a later [addEmployee] for the same id fails with
    "Employee already exists" and changes nothing. *)
Theorem addEmployee_only_once st txs env i n d :
  exists_at st i = true ->
  let st1 := run FHE st txs in
  let tx := mkTx env (AddEmployee i n d) in
  outcome FHE st1 tx = Err (Revert "Employee already exists") /\
  error_kind (Revert "Employee already exists") = Some AlreadyExists /\
  apply_tx FHE st1 tx = st1.
Proof.
  intros Hex st1 tx.
  destruct (identity_run txs st i Hex) as (Hex1 & _).
  unfold outcome, apply_tx, dispatch, tx; simpl.
  unfold addEmployee, require. subst st1. by rewrite Hex1.
Qed.

(** X3: no call unregisters an employee or changes its [employeeId], [name]
    or [departmentId]: they are the same after any sequence of calls. *)
Theorem employee_identity_is_permanent st txs i :
  exists_at st i = true ->
  let e := employee_at st i in
  let e' := employee_at (run FHE st txs) i in
  exists_at (run FHE st txs) i = true /\
  Employee.employeeId e' = Employee.employeeId e /\
  Employee.name e' = Employee.name e /\
  Employee.departmentId e' = Employee.departmentId e.
Proof. intros Hex. by apply identity_run. Qed.

(** X4: every entry point that names an employee checks registration first:
    for an unregistered id, [submitReview], [verifyReview],
    [calculateFinalScore], [getEmployee] and [getReview] all fail with
    "Employee does not exist", whatever the other arguments and whatever the
    service would answer. *)
Theorem unregistered_employee_rejected st env i :
  exists_at st i = false ->
  error_kind (Revert "Employee does not exist") = Some NotFound /\
  (forall ct p w d,
      submitReview FHE env st i ct p w d
      = Err (Revert "Employee does not exist")) /\
  (forall rid clear proof,
      verifyReview FHE st i rid clear proof
      = Err (Revert "Employee does not exist")) /\
  calculateFinalScore st i = Err (Revert "Employee does not exist") /\
  getEmployee st i = Err (Revert "Employee does not exist") /\
  (forall rid, getReview st i rid = Err (Revert "Employee does not exist")).
Proof.
  intros Hex.
  unfold submitReview, verifyReview, calculateFinalScore, getEmployee,
    getReview, require.
  rewrite Hex. done.
Qed.


(** ** Submission and verification *)

(** X6: a [submitReview] that passes its checks publishes the handle and
    stores a pending review that [getReview] reads back under the derived
    id, with the weight, department, sender and timestamp of the call and
    a zero score; [getEmployee] is unaffected: nothing is aggregated yet. *)
Theorem submitReview_then_getReview st env i ct p w d h :
  exists_at st i = true ->
  0 < w ->
  fromExternal FHE ct p = Some h ->
  isInitialized FHE h = true ->
  Employee.departmentId (employee_at st i) = d ->
  let tx := mkTx env (SubmitReview i ct p w d) in
  let st' := apply_tx FHE st tx in
  outcome FHE st tx
    = Ok [AllowThis h; MakePubliclyDecryptable h;
          Emit (ReviewSubmitted i (msg_sender env))] /\
  getReview st' i (derive_reviewId i (block_timestamp env))
    = Ok (w, d, msg_sender env, block_timestamp env, 0, false) /\
  getEmployee st' i = getEmployee st i.
Proof.
  intros Hex Hw Hfe Hinit Hd tx st'.
  apply N.ltb_lt in Hw. apply N.eqb_eq in Hd.
  unfold st', outcome, apply_tx, dispatch, tx; simpl.
  unfold submitReview, require, FHE_fromExternal.
  rewrite Hex, Hw, Hfe. cbn [mbind result_bind].
  rewrite Hinit. cbn [mbind result_bind]. rewrite Hd.
  cbn [mbind result_bind].
  unfold getReview, getEmployee, require.
  rewrite !exists_at_store, Hex. cbn [mbind result_bind].
  rewrite employee_at_store, decide_True by done.
  unfold Employee.review; simpl. rewrite lookup_insert_eq. done.
Qed.

(** X7: a successful [submitReview] writes one review slot and nothing
    else: the other reviews of the employee, its totals, the other
    employees, the department index and the registrations are as before. *)
Theorem submitReview_frame st env i ct p w d st' effs :
  submitReview FHE env st i ct p w d = Ok (st', effs) ->
  let e := employee_at st i in
  let e' := employee_at st' i in
  (forall rid,
      rid <> derive_reviewId i (block_timestamp env) ->
      Employee.reviews e' !! rid = Employee.reviews e !! rid) /\
  Employee.totalScore e' = Employee.totalScore e /\
  Employee.reviewCount e' = Employee.reviewCount e /\
  (forall j, j <> i -> employees st' !! j = employees st !! j) /\
  departmentEmployees st' = departmentEmployees st /\
  employeeExists st' = employeeExists st.
Proof.
  intros Hop e e'.
  apply submitReview_Ok in Hop as (h & _ & _ & _ & _ & _ & ->).
  unfold e'. rewrite employee_at_store, decide_True by done. simpl.
  split; [|repeat split; try done].
  - intros rid Hrid. by rewrite lookup_insert_ne.
  - intros j Hj. by rewrite lookup_insert_ne.
Qed.

(** X8: a review turns from pending to verified only through a
    [verifyReview] call for it whose attestation the service accepted for
    the review's stored handle; the score stored is the decoded clear value
    of that call. *)
Theorem verified_only_by_attestation st tx i rid :
  let r := Employee.review (employee_at st i) rid in
  let r' := Employee.review (employee_at (apply_tx FHE st tx) i) rid in
  Review.isVerified r = false ->
  Review.isVerified r' = true ->
  exists clear proof v,
    tx_call tx = VerifyReview i rid clear proof /\
    checkSignatures FHE [Review.encryptedScore r] clear proof = true /\
    abi_decode_uint32 clear = Ok v /\
    Review.decryptedScore r' = v.
Proof.
  intros r r' Hr Hr'. unfold r, r' in *. clear r r'.
  destruct (apply_tx_cases st tx) as
    [Heq|[(j & n & d & _ & Hj & Heq)
    |[(j & ct & p & w & d & h & _ & _ & _ & _ & _ & _ & Heq)
    |[(j & rid' & c & p & v & Htx & _ & _ & Hsig & Hdec & _ & _ & Heq)
    |(j & _ & _ & _ & Heq)]]]]; rewrite Heq in Hr'.
  - exfalso. congruence.
  - exfalso. unfold Employee.review, employee_at in *; simpl in Hr'.
    rewrite lookup_insert in Hr'. case_decide; [subst j|]; simpl in Hr';
      congruence.
  - exfalso. rewrite employee_at_store in Hr'.
    case_decide; [subst j|congruence].
    unfold Employee.review in *; simpl in Hr'.
    rewrite lookup_insert in Hr'. case_decide; simpl in Hr'; congruence.
  - rewrite employee_at_store in Hr'.
    case_decide; [subst j|exfalso; congruence].
    unfold Employee.review in Hr' at 1; simpl in Hr'.
    rewrite lookup_insert in Hr'. case_decide; [subst rid'|]; simpl in Hr'.
    2: { exfalso. unfold Employee.review in *. congruence. }
    exists c, p, v. repeat split; try done.
    rewrite Heq, employee_at_store, decide_True by done.
    unfold Employee.review at 1; simpl. by rewrite lookup_insert_eq.
  - exfalso. rewrite employee_at_store in Hr'.
    case_decide; [subst j|congruence].
    unfold Employee.review in *. simpl in Hr'. congruence.
Qed.

(** X9: a successful [verifyReview] writes the score and the flag of one
    review and the two totals of its employee, nothing else: the handle,
    weight, department, reviewer and timestamp of the review, the other
    reviews, the employee's identity, the other employees, the department
    index and the registrations are as before. *)
Theorem verifyReview_frame st i rid clear proof st' effs :
  verifyReview FHE st i rid clear proof = Ok (st', effs) ->
  let e := employee_at st i in
  let e' := employee_at st' i in
  let r := Employee.review e rid in
  let r' := Employee.review e' rid in
  (Review.encryptedScore r' = Review.encryptedScore r /\
   Review.weight r' = Review.weight r /\
   Review.departmentId r' = Review.departmentId r /\
   Review.reviewer r' = Review.reviewer r /\
   Review.timestamp r' = Review.timestamp r) /\
  (forall rid2,
      rid2 <> rid -> Employee.reviews e' !! rid2 = Employee.reviews e !! rid2) /\
  (Employee.employeeId e' = Employee.employeeId e /\
   Employee.name e' = Employee.name e /\
   Employee.departmentId e' = Employee.departmentId e) /\
  (forall j, j <> i -> employees st' !! j = employees st !! j) /\
  departmentEmployees st' = departmentEmployees st /\
  employeeExists st' = employeeExists st.
Proof.
  intros Hop e e' r r'.
  apply verifyReview_Ok in Hop as (v & _ & _ & _ & _ & _ & _ & -> & _).
  assert (e' = Employee.set_reviewCount
                 (Employee.set_totalScore
                    (Employee.set_review e rid (Review.set_verified r v))
                    (Employee.totalScore e + v * Review.weight r))
                 (Employee.reviewCount e + 1)) as He'
    by (unfold e'; by rewrite employee_at_store, decide_True).
  assert (r' = Review.set_verified r v) as Hr'
    by (unfold r', Employee.review; rewrite He'; simpl;
        by rewrite lookup_insert_eq).
  rewrite Hr', He'. simpl.
  split; [done|]. split; [|split; [done|split; [|done]]].
  - intros rid2 Hrid. by rewrite lookup_insert_ne.
  - intros j Hj. by rewrite lookup_insert_ne.
Qed.

(** X10: [verifyReview] has no existence check for the review. For an id
    with no stored review, an attestation the service accepts for the zero
    handle makes the call succeed: it stores a verified review of weight 0
    carrying the decoded value, adds 1 to [reviewCount] and leaves
    [totalScore] as it is. *)
Theorem verifyReview_absent_review_accepted st env i rid clear proof v :
  exists_at st i = true ->
  Employee.reviews (employee_at st i) !! rid = None ->
  checkSignatures FHE [0] clear proof = true ->
  abi_decode_uint32 clear = Ok v ->
  Employee.totalScore (employee_at st i) <= uint256_max ->
  Employee.reviewCount (employee_at st i) + 1 <= uint256_max ->
  let tx := mkTx env (VerifyReview i rid clear proof) in
  let e := employee_at st i in
  let e' := employee_at (apply_tx FHE st tx) i in
  outcome FHE st tx = Ok [Emit (ReviewDecrypted i v)] /\
  Employee.reviews e' !! rid = Some (Review.mk 0 0 0 0 0 v true) /\
  Employee.totalScore e' = Employee.totalScore e /\
  Employee.reviewCount e' = Employee.reviewCount e + 1.
Proof.
  intros Hex Hr Hsig Hdec Htot Hcnt tx e e'.
  assert (Employee.review e rid = Review.zero) as Hzero
    by (unfold Employee.review, e; by rewrite Hr).
  pose proof (verifyReview_success FHE st i rid clear proof v) as Hok.
  cbv zeta in Hok. fold e in Hok. rewrite Hzero in Hok. simpl in Hok.
  rewrite N.mul_0_r, N.add_0_r in Hok.
  specialize (Hok Hex eq_refl Hsig Hdec Htot Hcnt).
  unfold e', outcome, apply_tx, dispatch, tx; simpl. rewrite Hok.
  rewrite employee_at_store, decide_True by done. simpl.
  by rewrite lookup_insert_eq.
Qed.

(** ** Invariants of reachable states *)

Lemma employee_at_insert st j e a b i :
  employee_at (mkState (<[j := e]> (employees st)) a b) i
  = if decide (j = i) then e else employee_at st i.
Proof.
  unfold employee_at; simpl. rewrite lookup_insert. by case_decide.
Qed.

Lemma totals_bounded_step st tx :
  (forall i,
      Employee.totalScore (employee_at st i) <= uint256_max /\
      Employee.reviewCount (employee_at st i) <= uint256_max /\
      forall rid r,
        Employee.reviews (employee_at st i) !! rid = Some r ->
        Review.decryptedScore r <= uint32_max) ->
  (forall i,
      Employee.totalScore (employee_at (apply_tx FHE st tx) i)
        <= uint256_max /\
      Employee.reviewCount (employee_at (apply_tx FHE st tx) i)
        <= uint256_max /\
      forall rid r,
        Employee.reviews (employee_at (apply_tx FHE st tx) i) !! rid
          = Some r ->
        Review.decryptedScore r <= uint32_max).
Proof.
  intros Hinv i.
  destruct (apply_tx_cases st tx) as
    [->|[(j & n & d & _ & Hj & ->)
    |[(j & ct & p & w & d & h & _ & _ & _ & _ & _ & _ & ->)
    |[(j & rid' & c & p & v & _ & _ & _ & _ & Hdec & Htot & Hcnt & ->)
    |(j & _ & _ & Hcnt & ->)]]]]; [done|..].
  - rewrite employee_at_insert. case_decide; [subst j|done]. simpl.
    split; [done|]. split; [done|]. apply (Hinv i).
  - rewrite employee_at_store. case_decide; [subst j|done]. simpl.
    destruct (Hinv i) as (? & ? & Hrev). repeat split; try done.
    intros rid r. rewrite lookup_insert. case_decide.
    + by intros [= <-].
    + apply Hrev.
  - rewrite employee_at_store. case_decide; [subst j|done]. simpl.
    destruct (Hinv i) as (? & ? & Hrev). repeat split; try done.
    intros rid r. rewrite lookup_insert. case_decide.
    + intros [= <-]. simpl. by apply abi_decode_uint32_Ok in Hdec as (_ & _ & ?).
    + apply Hrev.
  - rewrite employee_at_store. case_decide; [subst j|done]. simpl.
    destruct (Hinv i) as (Ht & ? & Hrev). repeat split; try done.
    pose proof (N.Div0.div_le_upper_bound (Employee.totalScore (employee_at st i))
      (Employee.reviewCount (employee_at st i))
      (Employee.totalScore (employee_at st i))) as Hdiv.
    etrans; [apply Hdiv; nia|done].
Qed.

(** X11: in every reachable state each employee's [totalScore] and
    [reviewCount] are at most [2^256 - 1] and each stored [decryptedScore]
    is at most [2^32 - 1]: no call wraps a counter around. *)
Theorem reachable_values_bounded txs i :
  let e := employee_at (run FHE initial txs) i in
  Employee.totalScore e <= uint256_max /\
  Employee.reviewCount e <= uint256_max /\
  forall rid r,
    Employee.reviews e !! rid = Some r ->
    Review.decryptedScore r <= uint32_max.
Proof.
  cbv zeta. revert i.
  apply (run_invariant
    (fun st => forall i,
       Employee.totalScore (employee_at st i) <= uint256_max /\
       Employee.reviewCount (employee_at st i) <= uint256_max /\
       forall rid r,
         Employee.reviews (employee_at st i) !! rid = Some r ->
         Review.decryptedScore r <= uint32_max)).
  - apply totals_bounded_step.
  - intros i. unfold employee_at, initial; simpl. rewrite lookup_empty.
    simpl. split; [done|]. split; [done|].
    intros rid r. by rewrite lookup_empty.
Qed.

Lemma count_le_step st tx :
  registered st ->
  (forall i,
      N.of_nat (count_verified (Employee.reviews (employee_at st i)))
      <= Employee.reviewCount (employee_at st i)) ->
  forall i,
    N.of_nat
      (count_verified
         (Employee.reviews (employee_at (apply_tx FHE st tx) i)))
    <= Employee.reviewCount (employee_at (apply_tx FHE st tx) i).
Proof.
  intros Hreg Hinv i.
  destruct (apply_tx_cases st tx) as
    [->|[(j & n & d & _ & Hj & ->)
    |[(j & ct & p & w & d & h & _ & _ & _ & _ & _ & _ & ->)
    |[(j & rid' & c & p & v & _ & _ & Hnv & _ & _ & _ & _ & ->)
    |(j & _ & _ & _ & ->)]]]]; [done|..].
  - rewrite employee_at_insert. case_decide; [subst j|done]. simpl.
    rewrite (unregistered_zero st i Hreg Hj). simpl.
    by rewrite count_verified_empty.
  - rewrite employee_at_store. case_decide; [subst j|done]. simpl.
    pose proof (count_verified_insert (Employee.reviews (employee_at st i))
      (derive_reviewId i (block_timestamp (tx_env tx)))
      (Review.mk h w d (msg_sender (tx_env tx))
         (block_timestamp (tx_env tx)) 0 false)) as Hc.
    unfold indicator in Hc at 2. simpl in Hc. specialize (Hinv i). lia.
  - rewrite employee_at_store. case_decide; [subst j|done]. simpl.
    pose proof (count_verified_insert (Employee.reviews (employee_at st i))
      rid' (Review.set_verified (Employee.review (employee_at st i) rid') v))
      as Hc.
    unfold indicator in Hc at 2. simpl in Hc. specialize (Hinv i). lia.
  - rewrite employee_at_store. case_decide; [subst j|done]. simpl.
    apply Hinv.
Qed.

(** X12: in every reachable state, collisions or not, the number of stored
    reviews with [isVerified == true] is at most [reviewCount]: the counter
    is never behind the ledger, it can only be ahead of it. *)
Theorem verified_at_most_reviewCount txs i :
  let e := employee_at (run FHE initial txs) i in
  N.of_nat (count_verified (Employee.reviews e)) <= Employee.reviewCount e.
Proof.
  cbv zeta.
  assert (registered (run FHE initial txs) /\
          forall i,
            N.of_nat
              (count_verified
                 (Employee.reviews (employee_at (run FHE initial txs) i)))
            <= Employee.reviewCount (employee_at (run FHE initial txs) i))
    as [_ H]; [|apply H].
  apply (run_invariant
    (fun st => registered st /\
       forall i,
         N.of_nat (count_verified (Employee.reviews (employee_at st i)))
         <= Employee.reviewCount (employee_at st i))).
  - intros st tx [Hreg Hinv]. split; [by apply registered_step|].
    by apply count_le_step.
  - split; [apply registered_initial|]. intros j.
    unfold employee_at, initial; simpl. rewrite lookup_empty. simpl.
    by rewrite count_verified_empty.
Qed.

Lemma reviewCount_step st tx i :
  registered st ->
  Employee.reviewCount (employee_at st i)
  <= Employee.reviewCount (employee_at (apply_tx FHE st tx) i).
Proof.
  intros Hreg.
  destruct (apply_tx_cases st tx) as
    [->|[(j & n & d & _ & Hj & ->)
    |[(j & ct & p & w & d & h & _ & _ & _ & _ & _ & _ & ->)
    |[(j & rid' & c & p & v & _ & _ & _ & _ & _ & _ & _ & ->)
    |(j & _ & _ & _ & ->)]]]]; [done|..].
  - rewrite employee_at_insert. case_decide; [subst j|done]. simpl.
    by rewrite (unregistered_zero st i Hreg Hj).
  - rewrite employee_at_store. case_decide; [subst j|done]. done.
  - rewrite employee_at_store. case_decide; [subst j|done]. simpl. lia.
  - rewrite employee_at_store. case_decide; [subst j|done]. done.
Qed.

(** X13: [reviewCount] never decreases: along any run from the empty
    ledger, its value after more calls is at least its value before
    them. *)
Theorem reviewCount_never_decreases txs1 txs2 i :
  Employee.reviewCount (employee_at (run FHE initial txs1) i)
  <= Employee.reviewCount (employee_at (run FHE initial (txs1 ++ txs2)) i).
Proof.
  rewrite run_app.
  assert (registered (run FHE initial txs1)) as Hreg
    by apply registered_run, registered_initial.
  revert Hreg. generalize (run FHE initial txs1) as st.
  induction txs2 as [|tx txs IH]; intros st Hreg; [done|].
  simpl. etrans; [apply (reviewCount_step st tx i Hreg)|].
  apply IH. by apply registered_step.
Qed.

Lemma sum_le_step st tx i :
  registered st ->
  finalizes tx i = false ->
  weighted_sum (Employee.reviews (employee_at st i))
    <= Employee.totalScore (employee_at st i) ->
  weighted_sum (Employee.reviews (employee_at (apply_tx FHE st tx) i))
    <= Employee.totalScore (employee_at (apply_tx FHE st tx) i).
Proof.
  intros Hreg Hfin Hinv. unfold finalizes in Hfin.
  destruct (apply_tx_cases st tx) as
    [->|[(j & n & d & _ & Hj & ->)
    |[(j & ct & p & w & d & h & _ & _ & _ & _ & _ & _ & ->)
    |[(j & rid' & c & p & v & _ & _ & Hnv & _ & _ & _ & _ & ->)
    |(j & Htx & _ & _ & ->)]]]]; [done|..].
  - rewrite employee_at_insert. case_decide; [subst j|done]. simpl.
    rewrite (unregistered_zero st i Hreg Hj). simpl.
    by rewrite weighted_sum_empty.
  - rewrite employee_at_store. case_decide; [subst j|done]. simpl.
    pose proof (weighted_sum_insert (Employee.reviews (employee_at st i))
      (derive_reviewId i (block_timestamp (tx_env tx)))
      (Review.mk h w d (msg_sender (tx_env tx))
         (block_timestamp (tx_env tx)) 0 false)) as Hc.
    unfold contribution in Hc at 2. simpl in Hc. lia.
  - rewrite employee_at_store. case_decide; [subst j|done]. simpl.
    pose proof (weighted_sum_insert (Employee.reviews (employee_at st i))
      rid' (Review.set_verified (Employee.review (employee_at st i) rid') v))
      as Hc.
    unfold contribution in Hc at 1 2. unfold Employee.review in *.
    rewrite Hnv in Hc. simpl in Hc. lia.
  - rewrite employee_at_store. case_decide; [subst j|done].
    rewrite Htx in Hfin. by rewrite bool_decide_eq_true_2 in Hfin.
Qed.

(** X14: as long as [calculateFinalScore] has not been called for an
    employee, its [totalScore] is at least the sum of
    [decryptedScore * weight] over its verified reviews, collisions or not:
    a score once counted is never taken out of the total. *)
Theorem weighted_sum_at_most_totalScore txs i :
  forallb (fun tx => negb (finalizes tx i)) txs = true ->
  let e := employee_at (run FHE initial txs) i in
  weighted_sum (Employee.reviews e) <= Employee.totalScore e.
Proof.
  intros Hfin. cbv zeta.
  assert (forall st,
    registered st ->
    weighted_sum (Employee.reviews (employee_at st i))
      <= Employee.totalScore (employee_at st i) ->
    weighted_sum (Employee.reviews (employee_at (run FHE st txs) i))
      <= Employee.totalScore (employee_at (run FHE st txs) i)) as Hgen.
  { induction txs as [|tx txs IH]; intros st Hreg Hinv; [done|].
    simpl in Hfin. apply andb_prop in Hfin as [Hf Hfin].
    apply negb_true_iff in Hf.
    apply (IH Hfin); [by apply registered_step|by apply sum_le_step]. }
  apply Hgen; [apply registered_initial|].
  unfold employee_at, initial; simpl. rewrite lookup_empty. simpl.
  by rewrite weighted_sum_empty.
Qed.

(** X15: finalisation compounds: for a registered employee with
    [reviewCount > 0], [n] calls of [calculateFinalScore] in a row leave
    [totalScore / reviewCount ^ n] in [totalScore] and [reviewCount] as it
    was. *)
Theorem calculateFinalScore_repeated st txs i :
  exists_at st i = true ->
  0 < Employee.reviewCount (employee_at st i) ->
  forallb (fun tx => finalizes tx i) txs = true ->
  let e := employee_at st i in
  let e' := employee_at (run FHE st txs) i in
  Employee.totalScore e'
    = Employee.totalScore e / Employee.reviewCount e ^ N.of_nat (length txs) /\
  Employee.reviewCount e' = Employee.reviewCount e.
Proof.
  intros Hex Hcnt Hall. cbv zeta. revert st Hex Hcnt.
  induction txs as [|tx txs IH]; intros st Hex Hcnt.
  - simpl. by rewrite N.div_1_r.
  - simpl in Hall. apply andb_prop in Hall as [Htx Hall].
    assert (tx_call tx = CalculateFinalScore i) as Hcall.
    { unfold finalizes in Htx. destruct (tx_call tx); try done.
      apply bool_decide_eq_true in Htx. by subst. }
    assert (apply_tx FHE st tx
            = store_employee st i
                (Employee.set_totalScore (employee_at st i)
                   (Employee.totalScore (employee_at st i)
                      / Employee.reviewCount (employee_at st i)))) as Hstep.
    { unfold apply_tx, dispatch. rewrite Hcall.
      unfold calculateFinalScore, require. rewrite Hex.
      cbn [mbind result_bind]. apply N.ltb_lt in Hcnt. by rewrite Hcnt. }
    cbn [run fold_left]. fold (run FHE (apply_tx FHE st tx) txs).
    destruct (IH Hall (apply_tx FHE st tx)) as [Ht Hc].
    + by rewrite Hstep, exists_at_store.
    + rewrite Hstep, employee_at_store, decide_True by done. done.
    + rewrite Ht, Hc, Hstep, employee_at_store, decide_True by done. simpl.
      split; [|done].
      rewrite N.Div0.div_div. f_equal.
      rewrite Nat2N.inj_succ, N.pow_succ_r'. done.
Qed.

Lemma department_step st tx :
  (forall d,
      NoDup (department_at st d) /\
      forall i,
        i ∈ department_at st d <->
        exists_at st i = true /\
        Employee.departmentId (employee_at st i) = d) ->
  forall d,
    NoDup (department_at (apply_tx FHE st tx) d) /\
    forall i,
      i ∈ department_at (apply_tx FHE st tx) d <->
      exists_at (apply_tx FHE st tx) i = true /\
      Employee.departmentId (employee_at (apply_tx FHE st tx) i) = d.
Proof.
  intros Hinv d.
  destruct (apply_tx_cases st tx) as
    [->|[(j & n & d0 & _ & Hj & ->)
    |[(j & ct & p & w & d0 & h & _ & Hj & _ & _ & _ & _ & ->)
    |[(j & rid' & c & p & v & _ & Hj & _ & _ & _ & _ & _ & ->)
    |(j & _ & Hj & _ & ->)]]]]; [done|..].
  - assert (forall d', j ∉ department_at st d') as Hnew.
    { intros d' Hin. apply (Hinv d') in Hin as [Hin _]. congruence. }
    set (st' := mkState _ _ _).
    assert (department_at st' d
            = if decide (d0 = d) then department_at st d ++ [j]
              else department_at st d) as ->.
    { unfold department_at, st'; simpl. rewrite lookup_insert.
      case_decide; by subst. }
    assert (forall i, exists_at st' i
                      = if decide (j = i) then true else exists_at st i)
      as Hex'.
    { intros i. unfold exists_at, st'; simpl. rewrite lookup_insert.
      by case_decide. }
    assert (forall i, Employee.departmentId (employee_at st' i)
                      = if decide (j = i) then d0
                        else Employee.departmentId (employee_at st i))
      as Hdep'.
    { intros i. unfold st'. rewrite employee_at_insert. by case_decide. }
    split.
    + case_decide; [|apply Hinv].
      apply NoDup_app. split; [apply Hinv|]. split; [|apply NoDup_singleton].
      intros x Hx. rewrite list_elem_of_singleton. intros ->.
      by apply (Hnew d).
    + intros i. rewrite Hex', Hdep'.
      destruct (decide (j = i)) as [<-|Hi].
      * case_decide as Hd; [subst d0|].
        -- rewrite elem_of_app, list_elem_of_singleton. split; [done|].
           intros _. by right.
        -- split; [intros Hin; by apply Hnew in Hin|]. by intros [_ ?].
      * etrans; [|apply (proj2 (Hinv d) i)].
        case_decide; [|done].
        rewrite elem_of_app, list_elem_of_singleton.
        split; [intros [?|?]; [done|congruence]|]. intros ?. by left.
  - split; [apply Hinv|]. intros i. rewrite exists_at_store, employee_at_store.
    case_decide; [subst j|apply Hinv]. simpl. apply Hinv.
  - split; [apply Hinv|]. intros i. rewrite exists_at_store, employee_at_store.
    case_decide; [subst j|apply Hinv]. simpl. apply Hinv.
  - split; [apply Hinv|]. intros i. rewrite exists_at_store, employee_at_store.
    case_decide; [subst j|apply Hinv]. simpl. apply Hinv.
Qed.

(** X16: in every reachable state the list [getDepartmentEmployees]
    returns for a department has no duplicates and holds exactly the
    registered employees recorded with that department. *)
Theorem department_index_exact txs d :
  let st := run FHE initial txs in
  NoDup (getDepartmentEmployees st d) /\
  forall i,
    i ∈ getDepartmentEmployees st d <->
    exists_at st i = true /\ Employee.departmentId (employee_at st i) = d.
Proof.
  cbv zeta. unfold getDepartmentEmployees. revert d.
  apply (run_invariant
    (fun st => forall d,
       NoDup (department_at st d) /\
       forall i,
         i ∈ department_at st d <->
         exists_at st i = true /\
         Employee.departmentId (employee_at st i) = d)).
  - apply department_step.
  - intros d. unfold department_at, exists_at, initial; simpl.
    rewrite lookup_empty; simpl. split; [apply NoDup_nil_2|].
    intros i. rewrite lookup_empty; simpl. split; [by intros ?%elem_of_nil|].
    by intros [? _].
Qed.

(** X17: the department index is append-only: the list of a department
    after any sequence of calls extends the list before them, so entries
    are never removed or reordered. *)
Theorem department_index_append_only st txs d :
  getDepartmentEmployees st d
    `prefix_of` getDepartmentEmployees (run FHE st txs) d.
Proof.
  unfold getDepartmentEmployees. revert st.
  induction txs as [|tx txs IH]; intros st; [done|].
  simpl. etrans; [|apply IH].
  destruct (apply_tx_cases st tx) as
    [->|[(j & n & d0 & _ & Hj & ->)
    |[(j & ct & p & w & d0 & h & _ & _ & _ & _ & _ & _ & ->)
    |[(j & rid' & c & p & v & _ & _ & _ & _ & _ & _ & _ & ->)
    |(j & _ & _ & _ & ->)]]]]; try done.
  unfold department_at at 2; simpl. rewrite lookup_insert.
  case_decide; [subst d0|done]. simpl. by apply prefix_app_r.
Qed.

Lemma pending_step st tx :
  registered st ->
  (forall i rid r,
      Employee.reviews (employee_at st i) !! rid = Some r ->
      Review.isVerified r = false ->
      0 < Review.weight r /\ Review.decryptedScore r = 0 /\
      Review.departmentId r = Employee.departmentId (employee_at st i)) ->
  forall i rid r,
    Employee.reviews (employee_at (apply_tx FHE st tx) i) !! rid = Some r ->
    Review.isVerified r = false ->
    0 < Review.weight r /\ Review.decryptedScore r = 0 /\
    Review.departmentId r
      = Employee.departmentId (employee_at (apply_tx FHE st tx) i).
Proof.
  intros Hreg Hinv i rid r.
  destruct (apply_tx_cases st tx) as
    [->|[(j & n & d0 & _ & Hj & ->)
    |[(j & ct & p & w & d0 & h & _ & _ & Hw & _ & _ & Hd & ->)
    |[(j & rid' & c & p & v & _ & _ & _ & _ & _ & _ & _ & ->)
    |(j & _ & _ & _ & ->)]]]]; [apply Hinv|..].
  - rewrite employee_at_insert. case_decide; [subst j|apply Hinv]. simpl.
    rewrite (unregistered_zero st i Hreg Hj). simpl. by rewrite lookup_empty.
  - rewrite employee_at_store. case_decide; [subst j|apply Hinv]. simpl.
    rewrite lookup_insert. case_decide; [|apply Hinv].
    by intros [= <-] _.
  - rewrite employee_at_store. case_decide; [subst j|apply Hinv]. simpl.
    rewrite lookup_insert. case_decide; [|apply Hinv].
    by intros [= <-].
  - rewrite employee_at_store. case_decide; [subst j|apply Hinv]. simpl.
    apply Hinv.
Qed.

(** X18: in every reachable state a stored review that is still pending
    has a positive weight, a zero [decryptedScore] and the department of
    the employee it is stored under. *)
Theorem pending_reviews_wellformed txs i rid r :
  let e := employee_at (run FHE initial txs) i in
  Employee.reviews e !! rid = Some r ->
  Review.isVerified r = false ->
  0 < Review.weight r /\ Review.decryptedScore r = 0 /\
  Review.departmentId r = Employee.departmentId e.
Proof.
  cbv zeta.
  assert (registered (run FHE initial txs) /\
          forall i rid r,
            Employee.reviews (employee_at (run FHE initial txs) i) !! rid
              = Some r ->
            Review.isVerified r = false ->
            0 < Review.weight r /\ Review.decryptedScore r = 0 /\
            Review.departmentId r
              = Employee.departmentId (employee_at (run FHE initial txs) i))
    as [_ H]; [|apply H].
  apply (run_invariant
    (fun st => registered st /\
       forall i rid r,
         Employee.reviews (employee_at st i) !! rid = Some r ->
         Review.isVerified r = false ->
         0 < Review.weight r /\ Review.decryptedScore r = 0 /\
         Review.departmentId r = Employee.departmentId (employee_at st i))).
  - intros st tx [Hreg Hinv]. split; [by apply registered_step|].
    by apply pending_step.
  - split; [apply registered_initial|]. intros j rid' r'.
    unfold employee_at, initial; simpl. rewrite lookup_empty. simpl.
    by rewrite lookup_empty.
Qed.

(** ** Order of verification *)

(** X19: verifications of two different reviews of an employee commute:
    when verifying [rid1] and then [rid2] succeeds, verifying [rid2] and then
    [rid1] succeeds too, each call with the same event, and the storage at
    the end is the same. *)
Theorem verifyReview_commutes st i rid1 rid2 c1 p1 c2 p2 st1 st12 effs1 effs2 :
  rid1 <> rid2 ->
  verifyReview FHE st i rid1 c1 p1 = Ok (st1, effs1) ->
  verifyReview FHE st1 i rid2 c2 p2 = Ok (st12, effs2) ->
  exists st2,
    verifyReview FHE st i rid2 c2 p2 = Ok (st2, effs2) /\
    verifyReview FHE st2 i rid1 c1 p1 = Ok (st12, effs1).
Proof.
  intros Hne H1 H2.
  apply verifyReview_Ok in H1
    as (v1 & Hex & Hnv1 & Hsig1 & Hdec1 & Htot1 & Hcnt1 & -> & ->).
  apply verifyReview_Ok in H2
    as (v2 & _ & Hnv2 & Hsig2 & Hdec2 & Htot2 & Hcnt2 & -> & ->).
  set (e := employee_at st i) in *.
  set (r1 := Employee.review e rid1) in *.
  set (r2 := Employee.review e rid2).
  rewrite employee_at_store, decide_True in Hnv2, Hsig2, Htot2, Hcnt2 |- *
    by done.
  assert (forall e1 t c,
    Employee.review
      (Employee.set_reviewCount
         (Employee.set_totalScore
            (Employee.set_review e rid1 e1) t) c) rid2 = r2) as Hr2.
  { intros. unfold Employee.review, r2; simpl. by rewrite lookup_insert_ne. }
  assert (forall e2 t c,
    Employee.review
      (Employee.set_reviewCount
         (Employee.set_totalScore
            (Employee.set_review e rid2 e2) t) c) rid1 = r1) as Hr1.
  { intros. unfold Employee.review, r1; simpl. by rewrite lookup_insert_ne. }
  rewrite Hr2 in Hnv2, Hsig2, Htot2 |- *. simpl in Htot2, Hcnt2.
  eexists. split.
  - apply (verifyReview_success FHE st i rid2 c2 p2 v2); fold e; fold r2;
      try done.
    pose proof (N.le_0_l (v1 * Review.weight r1)) as Hp. lia.
  - rewrite (verifyReview_success FHE _ i rid1 c1 p1 v1).
    + rewrite employee_at_store, decide_True by done. rewrite Hr1.
      simpl. f_equal. f_equal.
      unfold store_employee; simpl. rewrite !insert_insert_eq.
      f_equal. f_equal.
      unfold Employee.set_reviewCount, Employee.set_totalScore,
        Employee.set_review; simpl.
      subst r1 r2 e. f_equal; try lia. by apply insert_insert_ne.
    + by rewrite exists_at_store.
    + rewrite employee_at_store, decide_True by done. by rewrite Hr1.
    + rewrite employee_at_store, decide_True by done. by rewrite Hr1.
    + done.
    + rewrite employee_at_store, decide_True by done. rewrite Hr1. simpl.
      subst r1 r2 e. lia.
    + rewrite employee_at_store, decide_True by done. simpl.
      subst r1 r2 e. lia.
Qed.

End Steps.

(** ** Encoding *)

Lemma be_value_snoc bs b :
  be_value (bs ++ [b]) = be_value bs * 256 + Byte.to_N b.
Proof. unfold be_value. by rewrite fold_left_app. Qed.

Lemma to_N_byte_of_N n : Byte.to_N (byte_of_N n) = n mod 256.
Proof.
  unfold byte_of_N.
  destruct (Byte.of_N (n mod 256)) as [b|] eqn:Hb.
  - by apply Byte.to_of_N.
  - apply Byte.of_N_None_iff in Hb.
    pose proof (N.mod_upper_bound n 256). lia.
Qed.

Lemma length_be_bytes len n : length (be_bytes len n) = len.
Proof.
  revert n. induction len as [|k IH]; intros n; [done|].
  simpl. rewrite length_app, IH. simpl. lia.
Qed.

Lemma be_value_be_bytes len n :
  be_value (be_bytes len n) = n mod 256 ^ N.of_nat len.
Proof.
  revert n. induction len as [|k IH]; intros n.
  - simpl. by rewrite N.mod_1_r.
  - cbn [be_bytes]. rewrite be_value_snoc, IH, to_N_byte_of_N.
    rewrite Nat2N.inj_succ, N.pow_succ_r'.
    rewrite (N.Div0.mod_mul_r n 256 (256 ^ N.of_nat k)). lia.
Qed.

Lemma be_bytes_inj m n :
  m <= uint256_max -> n <= uint256_max ->
  be_bytes 32 m = be_bytes 32 n -> m = n.
Proof.
  intros Hm Hn Heq. apply (f_equal be_value) in Heq.
  rewrite !be_value_be_bytes in Heq.
  change (256 ^ N.of_nat 32) with (uint256_max + 1) in Heq.
  rewrite !N.mod_small in Heq by lia. done.
Qed.

Lemma append_inj_r (s t1 t2 : string) :
  String.append s t1 = String.append s t2 -> t1 = t2.
Proof.
  induction s as [|a s IH]; simpl; [done|]. intros [= H]. by apply IH.
Qed.

Lemma derive_reviewId_inj_ts i t1 t2 :
  t1 <= uint256_max -> t2 <= uint256_max ->
  derive_reviewId i t1 = derive_reviewId i t2 -> t1 = t2.
Proof.
  intros H1 H2 Heq. unfold derive_reviewId in Heq.
  apply append_inj_r in Heq. apply (append_inj_r "_") in Heq.
  apply (f_equal String.list_byte_of_string) in Heq.
  rewrite !String.list_byte_of_string_of_list_byte in Heq.
  by apply be_bytes_inj.
Qed.

(** X20: decoding inverts encoding: for a [uint256] value [v], the word
    [abi.encode(v)], followed by any further bytes, decodes as a [uint32] to
    [v] when [v < 2^32], and the decoding reverts otherwise. *)
Theorem abi_decode_encode v rest :
  v <= uint256_max ->
  abi_decode_uint32 (be_bytes 32 v ++ rest)
  = if v <=? uint32_max then Ok v else Err DecodeRevert.
Proof.
  intros Hv. unfold abi_decode_uint32.
  rewrite length_app, length_be_bytes.
  assert ((32 + length rest <? 32)%nat = false) as ->
    by (apply Nat.ltb_ge; lia).
  rewrite take_app_length' by (by rewrite length_be_bytes).
  rewrite be_value_be_bytes.
  change (256 ^ N.of_nat 32) with (uint256_max + 1).
  rewrite N.mod_small by lia. done.
Qed.

(** X21: the derived review id determines the block timestamp: for one
    employee, submissions in blocks with different timestamps get different
    ids. *)
Theorem derive_reviewId_injective i t1 t2 :
  t1 <= uint256_max ->
  t2 <= uint256_max ->
  derive_reviewId i t1 = derive_reviewId i t2 <-> t1 = t2.
Proof.
  intros H1 H2. split; [by apply derive_reviewId_inj_ts|by intros ->].
Qed.

(** X22: a submission never touches the reviews of earlier blocks: a
    review stored under the id derived for timestamp [ts] is unchanged by a
    successful [submitReview] for the same employee in a block with another
    timestamp. *)
Theorem submitReview_keeps_other_blocks
    (FHE : FheService) st env i ct p w d st' effs ts r :
  ts <= uint256_max ->
  block_timestamp env <= uint256_max ->
  block_timestamp env <> ts ->
  Employee.reviews (employee_at st i) !! derive_reviewId i ts = Some r ->
  submitReview FHE env st i ct p w d = Ok (st', effs) ->
  Employee.reviews (employee_at st' i) !! derive_reviewId i ts = Some r.
Proof.
  intros Hts Henv Hne Hr Hop.
  apply submitReview_Ok in Hop as (h & _ & _ & _ & _ & _ & ->).
  rewrite employee_at_store, decide_True by done. simpl.
  rewrite lookup_insert_ne; [done|].
  intros Heq. by apply derive_reviewId_inj_ts in Heq.
Qed.

(** ** The further properties on concrete ledgers *)

(** [addEmployee_registers] on the empty ledger. *)
Lemma addEmployee_registers_E1 :
  let st' := apply_tx fhe_accepting initial add_E1 in
  outcome fhe_accepting initial add_E1 = Ok [] /\
  exists_at st' "E1" = true /\
  getEmployee st' "E1" = Ok ("Alice", 0, 0, 10) /\
  getDepartmentEmployees st' 10 = getDepartmentEmployees initial 10 ++ ["E1"].
Proof.
  apply (addEmployee_registers fhe_accepting initial (mkEnv 7 1000)
           "E1" "Alice" 10).
  vm_compute; reflexivity.
Defined.

(** [addEmployee_only_once]: E1 cannot be registered again after a review. *)
Lemma addEmployee_only_once_E1 :
  let st1 := run fhe_accepting (run fhe_accepting initial [add_E1])
               [submit_E1 1000 2; verify_E1 1012 1000 8] in
  let tx := at_time 1024 (AddEmployee "E1" "Bob" 11) in
  outcome fhe_accepting st1 tx = Err (Revert "Employee already exists") /\
  error_kind (Revert "Employee already exists") = Some AlreadyExists /\
  apply_tx fhe_accepting st1 tx = st1.
Proof.
  apply (addEmployee_only_once fhe_accepting
           (run fhe_accepting initial [add_E1])
           [submit_E1 1000 2; verify_E1 1012 1000 8] (mkEnv 7 1024)
           "E1" "Bob" 11).
  vm_compute; reflexivity.
Defined.

(** [employee_identity_is_permanent] across a submission, a verification and a finalisation. *)
Lemma employee_identity_is_permanent_E1 :
  let st := run fhe_accepting initial [add_E1] in
  let txs := [submit_E1 1000 2; verify_E1 1012 1000 8; finalize_E1 1024] in
  let e' := employee_at (run fhe_accepting st txs) "E1" in
  exists_at (run fhe_accepting st txs) "E1" = true /\
  Employee.employeeId e' = "E1" /\
  Employee.name e' = "Alice" /\
  Employee.departmentId e' = 10.
Proof.
  apply (employee_identity_is_permanent fhe_accepting
           (run fhe_accepting initial [add_E1])
           [submit_E1 1000 2; verify_E1 1012 1000 8; finalize_E1 1024] "E1").
  vm_compute; reflexivity.
Defined.

(** [unregistered_employee_rejected] on the empty ledger. *)
Lemma unregistered_employee_rejected_E1 :
  error_kind (Revert "Employee does not exist") = Some NotFound /\
  (forall ct p w d,
      submitReview fhe_accepting (mkEnv 7 1000) initial "E1" ct p w d
      = Err (Revert "Employee does not exist")) /\
  (forall rid clear proof,
      verifyReview fhe_accepting initial "E1" rid clear proof
      = Err (Revert "Employee does not exist")) /\
  calculateFinalScore initial "E1" = Err (Revert "Employee does not exist") /\
  getEmployee initial "E1" = Err (Revert "Employee does not exist") /\
  (forall rid,
      getReview initial "E1" rid = Err (Revert "Employee does not exist")).
Proof.
  apply (unregistered_employee_rejected fhe_accepting initial (mkEnv 7 1000)
           "E1").
  vm_compute; reflexivity.
Defined.


(** [submitReview_then_getReview] on the first review of E1. *)
Lemma submitReview_then_getReview_E1 :
  let st := run fhe_accepting initial [add_E1] in
  let tx := submit_E1 1000 2 in
  let st' := apply_tx fhe_accepting st tx in
  outcome fhe_accepting st tx
    = Ok [AllowThis 55; MakePubliclyDecryptable 55;
          Emit (ReviewSubmitted "E1" 7)] /\
  getReview st' "E1" (rid_E1 1000) = Ok (2, 10, 7, 1000, 0, false) /\
  getEmployee st' "E1" = getEmployee st "E1".
Proof.
  apply (submitReview_then_getReview fhe_accepting
           (run fhe_accepting initial [add_E1]) (mkEnv 7 1000) "E1" 55 []
           2 10 55);
    vm_compute; reflexivity.
Defined.

(** [submitReview_frame] on a second submission for E1. *)
Lemma submitReview_frame_E1 :
  let st := run fhe_accepting initial [add_E1; submit_E1 1000 2] in
  let st' := apply_tx fhe_accepting st (submit_E1 1012 3) in
  Employee.reviews (employee_at st' "E1") !! rid_E1 1000
    = Employee.reviews (employee_at st "E1") !! rid_E1 1000 /\
  departmentEmployees st' = departmentEmployees st.
Proof.
  assert (submitReview fhe_accepting (mkEnv 7 1012)
            (run fhe_accepting initial [add_E1; submit_E1 1000 2])
            "E1" 55 [] 3 10
          = Ok (apply_tx fhe_accepting
                  (run fhe_accepting initial [add_E1; submit_E1 1000 2])
                  (submit_E1 1012 3),
                [AllowThis 55; MakePubliclyDecryptable 55;
                 Emit (ReviewSubmitted "E1" 7)])) as Hop
    by (vm_compute; reflexivity).
  pose proof (submitReview_frame _ _ _ _ _ _ _ _ _ _ Hop)
    as (Hrev & _ & _ & _ & Hdept & _).
  split; [|exact Hdept].
  apply Hrev. vm_compute; discriminate.
Defined.

(** [verified_only_by_attestation] on the verification of the review of E1. *)
Lemma verified_only_by_attestation_E1 :
  let st := run fhe_accepting initial [add_E1; submit_E1 1000 2] in
  let tx := verify_E1 1012 1000 8 in
  exists clear proof v,
    tx_call tx = VerifyReview "E1" (rid_E1 1000) clear proof /\
    checkSignatures fhe_accepting
      [Review.encryptedScore
         (Employee.review (employee_at st "E1") (rid_E1 1000))]
      clear proof = true /\
    abi_decode_uint32 clear = Ok v /\
    Review.decryptedScore
      (Employee.review (employee_at (apply_tx fhe_accepting st tx) "E1")
         (rid_E1 1000)) = v.
Proof.
  apply (verified_only_by_attestation fhe_accepting
           (run fhe_accepting initial [add_E1; submit_E1 1000 2])
           (verify_E1 1012 1000 8) "E1" (rid_E1 1000));
    vm_compute; reflexivity.
Defined.

(** [verifyReview_frame] on the verification of the review of E1. *)
Lemma verifyReview_frame_E1 :
  let st := run fhe_accepting initial [add_E1; submit_E1 1000 2] in
  let st' := apply_tx fhe_accepting st (verify_E1 1012 1000 8) in
  Review.weight (Employee.review (employee_at st' "E1") (rid_E1 1000)) = 2 /\
  Employee.name (employee_at st' "E1") = "Alice" /\
  departmentEmployees st' = departmentEmployees st.
Proof.
  assert (verifyReview fhe_accepting
            (run fhe_accepting initial [add_E1; submit_E1 1000 2])
            "E1" (rid_E1 1000) (abi_encode_uint32 8) []
          = Ok (apply_tx fhe_accepting
                  (run fhe_accepting initial [add_E1; submit_E1 1000 2])
                  (verify_E1 1012 1000 8),
                [Emit (ReviewDecrypted "E1" 8)])) as Hop
    by (vm_compute; reflexivity).
  pose proof (verifyReview_frame _ _ _ _ _ _ _ _ Hop)
    as ((_ & Hw & _) & _ & (_ & Hn & _) & _ & Hdept & _).
  split; [exact Hw|]. split; [exact Hn|exact Hdept].
Defined.

(** [verifyReview_absent_review_accepted] with the service that accepts every attestation. *)
Lemma verifyReview_absent_review_accepted_E1 :
  let st := run fhe_accepting initial [add_E1] in
  let tx := verify_unknown 8 in
  let e' := employee_at (apply_tx fhe_accepting st tx) "E1" in
  outcome fhe_accepting st tx = Ok [Emit (ReviewDecrypted "E1" 8)] /\
  Employee.reviews e' !! "E1_unknown" = Some (Review.mk 0 0 0 0 0 8 true) /\
  Employee.totalScore e' = Employee.totalScore (employee_at st "E1") /\
  Employee.reviewCount e' = Employee.reviewCount (employee_at st "E1") + 1.
Proof.
  apply (verifyReview_absent_review_accepted fhe_accepting
           (run fhe_accepting initial [add_E1]) (mkEnv 7 1000) "E1"
           "E1_unknown" (abi_encode_uint32 8) [] 8);
    vm_compute; first [reflexivity | discriminate].
Defined.

(** [reachable_values_bounded] on the verified review of E1. *)
Lemma reachable_values_bounded_E1 :
  Employee.reviews (employee_at (run fhe_accepting initial one_verified) "E1")
    !! rid_E1 1000 = Some (Review.mk 55 2 10 7 1000 8 true) /\
  8 <= uint32_max.
Proof.
  split; [vm_compute; reflexivity|].
  apply (proj2 (proj2 (reachable_values_bounded fhe_accepting one_verified
                         "E1"))
           (rid_E1 1000) (Review.mk 55 2 10 7 1000 8 true)).
  vm_compute; reflexivity.
Defined.

(** [weighted_sum_at_most_totalScore] on the ledger with a rewritten review. *)
Lemma weighted_sum_at_most_totalScore_E1 :
  forallb (fun tx => negb (finalizes tx "E1")) same_block = true /\
  (let e := employee_at (run fhe_accepting initial same_block) "E1" in
   weighted_sum (Employee.reviews e) <= Employee.totalScore e).
Proof.
  split; [vm_compute; reflexivity|].
  apply (weighted_sum_at_most_totalScore fhe_accepting same_block "E1").
  vm_compute; reflexivity.
Defined.

(** [calculateFinalScore_repeated]: two finalisations of 34 over 2 reviews. *)
Lemma calculateFinalScore_repeated_E1 :
  let st := run fhe_accepting initial two_verified in
  let txs := [finalize_E1 1048; finalize_E1 1060] in
  let e' := employee_at (run fhe_accepting st txs) "E1" in
  Employee.totalScore e' = 34 / 2 ^ 2 /\ Employee.reviewCount e' = 2.
Proof.
  apply (calculateFinalScore_repeated fhe_accepting
           (run fhe_accepting initial two_verified)
           [finalize_E1 1048; finalize_E1 1060] "E1");
    vm_compute; reflexivity.
Defined.

(** [pending_reviews_wellformed] on the pending review of E1. *)
Lemma pending_reviews_wellformed_E1 :
  let r := Review.mk 55 2 10 7 1000 0 false in
  0 < Review.weight r /\ Review.decryptedScore r = 0 /\
  Review.departmentId r
  = Employee.departmentId
      (employee_at
         (run fhe_accepting initial [add_E1; submit_E1 1000 2]) "E1").
Proof.
  apply (pending_reviews_wellformed fhe_accepting
           [add_E1; submit_E1 1000 2] "E1" (rid_E1 1000)
           (Review.mk 55 2 10 7 1000 0 false));
    vm_compute; reflexivity.
Defined.

(** [verifyReview_commutes] on the two reviews of E1. *)
Lemma verifyReview_commutes_E1 :
  let st := run fhe_accepting initial
              [add_E1; submit_E1 1000 2; submit_E1 1012 3] in
  let st12 := run fhe_accepting st
                [verify_E1 1024 1000 8; verify_E1 1036 1012 6] in
  exists st2,
    verifyReview fhe_accepting st "E1" (rid_E1 1012) (abi_encode_uint32 6) []
    = Ok (st2, [Emit (ReviewDecrypted "E1" 6)]) /\
    verifyReview fhe_accepting st2 "E1" (rid_E1 1000) (abi_encode_uint32 8) []
    = Ok (st12, [Emit (ReviewDecrypted "E1" 8)]).
Proof.
  apply (verifyReview_commutes fhe_accepting
           (run fhe_accepting initial
              [add_E1; submit_E1 1000 2; submit_E1 1012 3])
           "E1" (rid_E1 1000) (rid_E1 1012)
           (abi_encode_uint32 8) [] (abi_encode_uint32 6) []
           (apply_tx fhe_accepting
              (run fhe_accepting initial
                 [add_E1; submit_E1 1000 2; submit_E1 1012 3])
              (verify_E1 1024 1000 8)));
    vm_compute; first [reflexivity | discriminate].
Defined.

(** [abi_decode_encode] on the clear value 8. *)
Lemma abi_decode_encode_8 :
  abi_decode_uint32 (be_bytes 32 8 ++ []) = Ok 8.
Proof.
  apply (abi_decode_encode 8 []). vm_compute; discriminate.
Defined.

(** [derive_reviewId_injective] on two block timestamps. *)
Lemma derive_reviewId_injective_E1 :
  derive_reviewId "E1" 1000 = derive_reviewId "E1" 1012 <-> 1000 = 1012.
Proof.
  apply (derive_reviewId_injective "E1" 1000 1012); vm_compute; discriminate.
Defined.

(** [submitReview_keeps_other_blocks] on a later submission for E1. *)
Lemma submitReview_keeps_other_blocks_E1 :
  let st := run fhe_accepting initial [add_E1; submit_E1 1000 2] in
  let st' := apply_tx fhe_accepting st (submit_E1 1012 3) in
  Employee.reviews (employee_at st' "E1") !! rid_E1 1000
    = Some (Review.mk 55 2 10 7 1000 0 false).
Proof.
  apply (submitReview_keeps_other_blocks fhe_accepting
           (run fhe_accepting initial [add_E1; submit_E1 1000 2])
           (mkEnv 7 1012) "E1" 55 [] 3 10
           (apply_tx fhe_accepting
              (run fhe_accepting initial [add_E1; submit_E1 1000 2])
              (submit_E1 1012 3))
           [AllowThis 55; MakePubliclyDecryptable 55;
            Emit (ReviewSubmitted "E1" 7)]
           1000 (Review.mk 55 2 10 7 1000 0 false));
    vm_compute; first [reflexivity | discriminate].
Defined.
